(** * eCourts scraper: a shallow embedding of [ecourts_scraper.py] and
      [web_interface.py], and the properties of its specification.

    The program is a demonstration stub: every data-returning method of
    [ECourtsScraper] answers from literals written in the source.  The
    embedding keeps the shape of the Python code: dynamically typed values,
    [try]/[except] blocks, the logger, the clock and the file system are
    explicit, and every method is a computation over a [world]. *)

From Stdlib Require Import Ascii String ZArith Lia.
From stdpp Require Import gmap strings list pretty.

Set Warnings "-register-all".
Open Scope string_scope.

(** ** Python values *)

(** The values the program receives and builds: what [request.get_json()]
    delivers and what the dict and list literals of the source hold.  A dict
    is kept as an association list in insertion order, as Python keeps it;
    its keys are strings throughout the program.  Numbers are integers. *)
Inductive pyval : Type :=
| PNone
| PBool (b : bool)
| PInt (z : Z)
| PStr (s : string)
| PList (l : list pyval)
| PDict (d : list (string * pyval)).

Abbreviation dict := (list (string * pyval)).

Definition dict_empty : dict := [].

(** [d.get(k)], [None] when the key is absent. *)
Fixpoint dict_get (d : dict) (k : string) : option pyval :=
  match d with
  | [] => None
  | (k', v) :: d' => if String.eqb k k' then Some v else dict_get d' k
  end.

(** [d.get(k, default)]. *)
Definition dict_get_default (d : dict) (k : string) (default : pyval) : pyval :=
  match dict_get d k with
  | Some v => v
  | None => default
  end.

(** [bool(v)]: the truth value Python gives to [if v] and [not v]. *)
Definition py_truthy (v : pyval) : bool :=
  match v with
  | PNone => false
  | PBool b => b
  | PInt z => negb (Z.eqb z 0)
  | PStr s => negb (String.eqb s "")
  | PList l => match l with [] => false | _ => true end
  | PDict d => match d with [] => false | _ => true end
  end.

(** [type(v).__name__], as it appears in the messages of the interpreter. *)
Definition py_type_name (v : pyval) : string :=
  match v with
  | PNone => "NoneType"
  | PBool _ => "bool"
  | PInt _ => "int"
  | PStr _ => "str"
  | PList _ => "list"
  | PDict _ => "dict"
  end.

(** [v == s] for a string literal [s]: only a [str] can be equal to it. *)
Definition py_eq_str (v : pyval) (s : string) : bool :=
  match v with
  | PStr s' => String.eqb s' s
  | _ => false
  end.

(** ** Exceptions, the world and the monad of methods *)

(** An exception: its class and the text of [str(e)]. *)
Inductive exn : Type :=
| Exn (cls : string) (msg : string).

Definition exn_str (e : exn) : string :=
  match e with Exn _ msg => msg end.

Inductive result (A : Type) : Type :=
| Return (a : A)
| Raise (e : exn).
Arguments Return {A} a.
Arguments Raise {A} e.

(** A logged message is an f-string: literal text and formatted values.  The
    pieces are kept apart, unrendered. *)
Inductive frag : Type :=
| Lit (s : string)
| Fmt (v : pyval)
| FmtExn (e : exn).

Inductive level : Type := INFO | WARNING | ERROR.

Definition log_record : Type := level * list frag.

(** The file system, as far as [open(path, 'w')], [f.write] and
    [os.makedirs] can tell: the directories that exist, the files with their
    contents, the paths the process is not allowed to create or write, and
    the room left on the disk, in characters.  A directory is known under
    its name without empty components and components [.]; the working
    directory, the root and the directories above them always exist.  A
    file is known under its path as written: two spellings of one path are
    not identified, and a component [..] that follows a name is not
    resolved.  The log file is not part of it: see [world]. *)
Record filesystem : Type := {
  fs_dirs : gset string;
  fs_files : gmap string string;
  fs_denied : gset string;
  fs_room : N
}.

(** What a method can read and change.  [w_log] is the log: [logging] is
    configured once at import with two handlers, which never raise, and
    every record goes to the console and is appended to the file
    [ecourts_scraper.log] of the working directory; the list of the
    records stands for both, and [w_fs] is the file system without that
    file.  [w_strftime w fmt] is [datetime.now().strftime(fmt)], and
    [w_set_order w l] is the order in which Python iterates over the set of
    the strings [l], which depends on the hash seed of the process. *)
Record world : Type := {
  w_log : list log_record;
  w_fs : filesystem;
  w_strftime : string → string;
  w_set_order : list string → list string
}.

Definition M (A : Type) : Type := world → result A * world.

Definition run {A} (m : M A) (w : world) : result A * world := m w.

Global Instance M_ret : MRet M := λ A a w, (Return a, w).
Global Instance M_bind : MBind M := λ A B f m w,
  match m w with
  | (Return a, w') => f a w'
  | (Raise e, w') => (Raise e, w')
  end.

Definition raise {A} (e : exn) : M A := λ w, (Raise e, w).

(** [try: body  except Exception as e: handler e]. *)
Definition try_except {A} (body : M A) (handler : exn → M A) : M A := λ w,
  match body w with
  | (Return a, w') => (Return a, w')
  | (Raise e, w') => handler e w'
  end.

(** The file the [FileHandler] of the module appends the records to. *)
Definition log_file : string := "ecourts_scraper.log".

(** [logger.info(msg)], [logger.warning(msg)], [logger.error(msg)]: one more
    record in the log, on the console and in [log_file]. *)
Definition logger (lv : level) (msg : list frag) : M unit := λ w,
  (Return tt, {| w_log := w_log w ++ [(lv, msg)]; w_fs := w_fs w;
                 w_strftime := w_strftime w; w_set_order := w_set_order w |}).

Definition strftime (fmt : string) : M string := λ w,
  (Return (w_strftime w fmt), w).

Definition get_fs : M filesystem := λ w, (Return (w_fs w), w).

Definition put_fs (fs : filesystem) : M unit := λ w,
  (Return tt, {| w_log := w_log w; w_fs := fs; w_strftime := w_strftime w;
                 w_set_order := w_set_order w |}).

Definition set_order : M (list string → list string) := λ w,
  (Return (w_set_order w), w).

(** ** Library functions the program calls *)

Definition LF : ascii := "010"%char.
Definition CR : ascii := "013"%char.
Definition DQUOTE : ascii := "034"%char.
Definition COMMA : ascii := ","%char.
Definition SLASH : ascii := "/"%char.

(** [sep.join(parts)]. *)
Fixpoint str_join (sep : string) (parts : list string) : string :=
  match parts with
  | [] => ""
  | [p] => p
  | p :: ps => p +:+ sep +:+ str_join sep ps
  end.

Fixpoint str_contains (c : ascii) (s : string) : bool :=
  match s with
  | EmptyString => false
  | String c' s' => Ascii.eqb c c' || str_contains c s'
  end.

Definition str_startswith (c : ascii) (s : string) : bool :=
  match s with
  | String c' _ => Ascii.eqb c c'
  | EmptyString => false
  end.

Fixpoint str_endswith (c : ascii) (s : string) : bool :=
  match s with
  | EmptyString => false
  | String c' EmptyString => Ascii.eqb c c'
  | String _ s' => str_endswith c s'
  end.

Module os_path.

(** [os.path.join(a, b)] of posixpath, for two components. *)
Definition join (a b : string) : string :=
  if str_startswith SLASH b then b
  else if String.eqb a "" || str_endswith SLASH a then a +:+ b
  else a +:+ "/" +:+ b.

(** [s.rstrip('/')]. *)
Fixpoint rstrip_slash (s : string) : string :=
  match s with
  | EmptyString => ""
  | String c s' =>
      match rstrip_slash s' with
      | EmptyString => if Ascii.eqb c SLASH then "" else String c ""
      | r => String c r
      end
  end.

(** The text before the last slash of [p]; [None] when [p] has no slash. *)
Fixpoint before_last_slash (p : string) : option string :=
  match p with
  | EmptyString => None
  | String c p' =>
      match before_last_slash p' with
      | Some d => Some (String c d)
      | None => if Ascii.eqb c SLASH then Some "" else None
      end
  end.

(** [os.path.dirname(p)] of posixpath: the text up to the last slash,
    without its trailing slashes unless it is made of slashes only. *)
Definition dirname (p : string) : string :=
  match before_last_slash p with
  | None => ""
  | Some d =>
      match rstrip_slash d with
      | EmptyString => d +:+ "/"
      | r => r
      end
  end.

(** The directories that the text of [p] names above it, outermost first:
    the text before each slash of [p], without its trailing slashes. *)
Fixpoint ancestors (seen : string) (p : string) : list string :=
  match p with
  | EmptyString => []
  | String c p' =>
      (if Ascii.eqb c SLASH then
         match rstrip_slash seen with EmptyString => [] | d => [d] end
       else [])
      ++ ancestors (seen +:+ String c "") p'
  end.

(** The directories [os.makedirs(p)] goes through, outermost first: those
    above [p], then [p] itself. *)
Definition prefixes (p : string) : list string :=
  ancestors "" (rstrip_slash p) ++ [p].

(** The components of [p], the texts between its slashes; [cur] is the
    component being read. *)
Fixpoint components (cur : string) (p : string) : list string :=
  match p with
  | EmptyString => [cur]
  | String c p' =>
      if Ascii.eqb c SLASH then cur :: components "" p'
      else components (cur +:+ String c "") p'
  end.

(** The components that lead somewhere: not the empty ones, nor [.]. *)
Definition steps (p : string) : list string :=
  filter (λ c, c ≠ "" ∧ c ≠ ".") (components "" p).

(** The name of the directory [p] without empty components and [.]. *)
Definition normal (p : string) : string :=
  (if str_startswith SLASH p then "/" else "") +:+ str_join "/" (steps p).

(** [p] names the directory it starts from, or one above it: the working
    directory, the root, [..] and the like. *)
Definition above (p : string) : bool := forallb (String.eqb "..") (steps p).

End os_path.

Definition FileNotFoundError (path : string) : exn :=
  Exn "FileNotFoundError" ("[Errno 2] No such file or directory: '" +:+ path +:+ "'").
Definition PermissionError (path : string) : exn :=
  Exn "PermissionError" ("[Errno 13] Permission denied: '" +:+ path +:+ "'").
Definition IsADirectoryError (path : string) : exn :=
  Exn "IsADirectoryError" ("[Errno 21] Is a directory: '" +:+ path +:+ "'").
Definition FileExistsError (path : string) : exn :=
  Exn "FileExistsError" ("[Errno 17] File exists: '" +:+ path +:+ "'").
Definition NotADirectoryError (path : string) : exn :=
  Exn "NotADirectoryError" ("[Errno 20] Not a directory: '" +:+ path +:+ "'").
Definition NoSpaceError : exn :=
  Exn "OSError" "[Errno 28] No space left on device".

(** [os.path.isdir(d)]. *)
Definition fs_isdir (fs : filesystem) (d : string) : bool :=
  os_path.above d || bool_decide (os_path.normal d ∈ fs_dirs fs).

Definition fs_isfile (fs : filesystem) (p : string) : bool :=
  bool_decide (is_Some (fs_files fs !! p)).

(** A file stands where [p] needs a directory. *)
Definition fs_under_file (fs : filesystem) (p : string) : bool :=
  existsb (fs_isfile fs) (os_path.ancestors "" p).

(** What [os.makedirs(..., exist_ok=True)] does with one of the directories
    it goes through.  A directory that exists is left alone.  A directory
    above the one asked for is made when nothing has its name; the last
    one is made with [os.mkdir], which refuses the name of a file. *)
Definition fs_mkdir (last : bool) (fs : filesystem) (d : string) : result filesystem :=
  let stem := os_path.rstrip_slash d in
  if fs_isdir fs d then Return fs
  else if fs_isfile fs stem then
    if last then Raise (FileExistsError d) else Return fs
  else if fs_under_file fs stem then Raise (NotADirectoryError d)
  else if negb (fs_isdir fs (os_path.dirname stem)) then Raise (FileNotFoundError d)
  else if bool_decide (d ∈ fs_denied fs) then Raise (PermissionError d)
  else Return {| fs_dirs := {[os_path.normal d]} ∪ fs_dirs fs;
                 fs_files := fs_files fs;
                 fs_denied := fs_denied fs;
                 fs_room := fs_room fs |}.

(** The directories are made one after the other: those made before a
    failure stay. *)
Fixpoint fs_mkdirs (fs : filesystem) (ds : list string) : filesystem * option exn :=
  match ds with
  | [] => (fs, None)
  | d :: ds' =>
      match fs_mkdir (match ds' with [] => true | _ => false end) fs d with
      | Return fs' => fs_mkdirs fs' ds'
      | Raise e => (fs, Some e)
      end
  end.

(** [os.makedirs(name, exist_ok=True)]. *)
Definition os_makedirs (name : string) : M unit :=
  fs ← get_fs;
  if String.eqb name "" then raise (FileNotFoundError name)
  else
    let '(fs', err) := fs_mkdirs fs (os_path.prefixes name) in
    put_fs fs';;
    match err with
    | Some e => raise e
    | None => mret tt
    end.

(** [open(path, 'w')]: the file is created, or emptied when it exists, and
    then the room its text took is free again. *)
Definition fs_open_w (fs : filesystem) (path : string) : result filesystem :=
  let stem := os_path.rstrip_slash path in
  if String.eqb path "" then Raise (FileNotFoundError path)
  else if String.eqb stem "" then Raise (IsADirectoryError path)
  else if fs_under_file fs stem then Raise (NotADirectoryError path)
  else if negb (fs_isdir fs (os_path.dirname stem)) then Raise (FileNotFoundError path)
  else if fs_isdir fs path || str_endswith SLASH path then Raise (IsADirectoryError path)
  else if bool_decide (path ∈ fs_denied fs) then Raise (PermissionError path)
  else Return {| fs_dirs := fs_dirs fs;
                 fs_files := <[path := ""]> (fs_files fs);
                 fs_denied := fs_denied fs;
                 fs_room := (fs_room fs
                             + N.of_nat (String.length (default "" (fs_files fs !! path))))%N |}.

Definition open_w (path : string) : M unit :=
  fs ← get_fs;
  match fs_open_w fs path with
  | Return fs' => put_fs fs'
  | Raise e => raise e
  end.

(** [f.write(text)] on the file opened at [path], up to the time the file
    is closed: the text reaches the file when the disk has room for it;
    when it has not, the characters that fit reach the file and the write,
    or the close that flushes it, raises [OSError]. *)
Definition file_write (path : string) (text : string) : M unit :=
  fs ← get_fs;
  let old := default "" (fs_files fs !! path) in
  let size := N.of_nat (String.length text) in
  if (size <=? fs_room fs)%N then
    put_fs {| fs_dirs := fs_dirs fs;
              fs_files := <[path := old +:+ text]> (fs_files fs);
              fs_denied := fs_denied fs;
              fs_room := (fs_room fs - size)%N |}
  else
    put_fs {| fs_dirs := fs_dirs fs;
              fs_files := <[path := old +:+ String.substring 0 (N.to_nat (fs_room fs)) text]>
                            (fs_files fs);
              fs_denied := fs_denied fs;
              fs_room := 0%N |};;
    raise NoSpaceError.

Module re.

(** The class [A-Za-z0-9_-]. *)
Definition word_or_dash (c : ascii) : bool :=
  let n := nat_of_ascii c in
  (((65 <=? n) && (n <=? 90)) || ((97 <=? n) && (n <=? 122))
   || ((48 <=? n) && (n <=? 57)) || (n =? 95) || (n =? 45))%nat.

(** [re.sub(r"[^A-Za-z0-9_-]+", "_", s)]: every maximal run of characters
    outside the class becomes one underscore.  [in_run] tells that the
    previous character was outside the class. *)
Fixpoint sub_unsafe_runs (in_run : bool) (s : string) : string :=
  match s with
  | EmptyString => ""
  | String c s' =>
      if word_or_dash c then String c (sub_unsafe_runs false s')
      else if in_run then sub_unsafe_runs true s'
      else String "_" (sub_unsafe_runs true s')
  end.

End re.

Definition BACKSLASH : ascii := "092"%char.
Definition SQUOTE : ascii := "039"%char.
Definition TAB : ascii := "009"%char.

Definition hex_digit (n : nat) : ascii :=
  nth n (list_ascii_of_string "0123456789abcdef") "0"%char.

Definition hex2 (c : ascii) : string :=
  let n := nat_of_ascii c in
  String (hex_digit (n / 16)) (String (hex_digit (n mod 16)) "").

Definition str_map (f : ascii → string) (s : string) : string :=
  String.concat "" (map f (list_ascii_of_string s)).

(** [repr(s)] of a [str]: single quotes, unless the text has a single quote
    and no double quote; the quote in use, the backslash and the control
    characters are escaped.  Characters are the bytes of the text, and text
    outside ASCII is taken as printable. *)
Definition py_repr_char (q : ascii) (c : ascii) : string :=
  if Ascii.eqb c q || Ascii.eqb c BACKSLASH then String BACKSLASH (String c "")
  else if Ascii.eqb c TAB then "\t"
  else if Ascii.eqb c LF then "\n"
  else if Ascii.eqb c CR then "\r"
  else if (nat_of_ascii c <? 32)%nat || (nat_of_ascii c =? 127)%nat
       then "\x" +:+ hex2 c
  else String c "".

Definition py_repr_str (s : string) : string :=
  let q := if str_contains SQUOTE s && negb (str_contains DQUOTE s)
           then DQUOTE else SQUOTE in
  String q (str_map (py_repr_char q) s) +:+ String q "".

(** CPython refuses to print an integer of more than 4300 digits: [str],
    [repr] and the JSON encoder raise [ValueError] on it.  (This is the
    behaviour of the releases from 3.11 on, and of the later releases of
    3.7 to 3.10.) *)
Definition int_printable (z : Z) : bool := (Z.abs z <? 10 ^ 4300)%Z.

Definition IntLimitError : exn :=
  Exn "ValueError"
    ("Exceeds the limit (4300 digits) for integer string conversion; "
       +:+ "use sys.set_int_max_str_digits() to increase the limit").

(** [str(z)] of an [int]. *)
Definition int_str (z : Z) : result string :=
  if int_printable z then Return (pretty z) else Raise IntLimitError.

(** The values [str] and [repr] print: those with no integer beyond the
    limit inside. *)
Fixpoint printable (v : pyval) : bool :=
  match v with
  | PInt z => int_printable z
  | PList l => forallb printable l
  | PDict d => forallb (λ kv, printable kv.2) d
  | _ => true
  end.

(** [repr(v)] of a value that is [printable]. *)
Fixpoint py_repr (v : pyval) : string :=
  match v with
  | PNone => "None"
  | PBool true => "True"
  | PBool false => "False"
  | PInt z => pretty z
  | PStr s => py_repr_str s
  | PList l => "[" +:+ str_join ", " (map py_repr l) +:+ "]"
  | PDict d =>
      "{" +:+ str_join ", "
                (map (λ kv, py_repr_str kv.1 +:+ ": " +:+ py_repr kv.2) d)
          +:+ "}"
  end.

(** [str(v)], which is also [format(v, '')] inside an f-string, of a value
    that is [printable]. *)
Definition py_str (v : pyval) : string :=
  match v with
  | PStr s => s
  | _ => py_repr v
  end.

(** [str(v)] of any value. *)
Definition py_str_checked (v : pyval) : result string :=
  if printable v then Return (py_str v) else Raise IntLimitError.

Module json.

(** The escapes of [json.dumps(..., ensure_ascii=False)]. *)
Definition escape_char (c : ascii) : string :=
  if Ascii.eqb c DQUOTE then String BACKSLASH (String DQUOTE "")
  else if Ascii.eqb c BACKSLASH then String BACKSLASH (String BACKSLASH "")
  else if Ascii.eqb c LF then "\n"
  else if Ascii.eqb c CR then "\r"
  else if Ascii.eqb c TAB then "\t"
  else if Ascii.eqb c "008"%char then "\b"
  else if Ascii.eqb c "012"%char then "\f"
  else if (nat_of_ascii c <? 32)%nat then "\u00" +:+ hex2 c
  else String c "".

Definition encode_str (s : string) : string :=
  String DQUOTE (str_map escape_char s) +:+ String DQUOTE "".

Fixpoint spaces (n : nat) : string :=
  match n with
  | O => ""
  | S n' => " " +:+ spaces n'
  end.

(** A line feed and the indentation of nesting level [lvl], two spaces
    for each level. *)
Definition newline_indent (lvl : nat) : string :=
  String LF (spaces (2 * lvl)).

(** The text of a value that is written in one piece. *)
Definition scalar (v : pyval) : option (result string) :=
  match v with
  | PNone => Some (Return "null")
  | PBool true => Some (Return "true")
  | PBool false => Some (Return "false")
  | PInt z => Some (int_str z)
  | PStr s => Some (Return (encode_str s))
  | PList _ | PDict _ => None
  end.

(** [json.dump(v, f, indent=2, ensure_ascii=False)], from nesting level
    [lvl]: the encoder hands the text over piece by piece, and each piece is
    written as it comes.  The result is the text written, and the
    exception that stopped the encoder if one did: the text before an
    integer that cannot be printed is written.  Inside a list, the
    separator before an item comes in one piece with the item when the item
    is written in one piece; in a dict, the key and the colon are pieces
    of their own. *)
Fixpoint iterencode (lvl : nat) (v : pyval) {struct v} : string * option exn :=
  match v with
  | PList [] => ("[]", None)
  | PList l =>
      (fix items (buf : string) (l : list pyval) {struct l} : string * option exn :=
         match l with
         | [] => (newline_indent lvl +:+ "]", None)
         | x :: l' =>
             let '(text, err) :=
               match scalar x with
               | Some (Return t) => (buf +:+ t, None)
               | Some (Raise e) => ("", Some e)
               | None =>
                   let '(t, err) := iterencode (S lvl) x in (buf +:+ t, err)
               end in
             match err with
             | Some e => (text, Some e)
             | None =>
                 let '(rest, err') := items ("," +:+ newline_indent (S lvl)) l' in
                 (text +:+ rest, err')
             end
         end) ("[" +:+ newline_indent (S lvl)) l
  | PDict [] => ("{}", None)
  | PDict d =>
      (fix items (sep : string) (d : list (string * pyval)) {struct d}
         : string * option exn :=
         match d with
         | [] => (newline_indent lvl +:+ "}", None)
         | (k, x) :: d' =>
             let head := sep +:+ encode_str k +:+ ": " in
             let '(text, err) :=
               match scalar x with
               | Some (Return t) => (head +:+ t, None)
               | Some (Raise e) => (head, Some e)
               | None =>
                   let '(t, err) := iterencode (S lvl) x in (head +:+ t, err)
               end in
             match err with
             | Some e => (text, Some e)
             | None =>
                 let '(rest, err') := items ("," +:+ newline_indent (S lvl)) d' in
                 (text +:+ rest, err')
             end
         end) ("{" +:+ newline_indent (S lvl)) d
  | v =>
      match scalar v with
      | Some (Return t) => (t, None)
      | Some (Raise e) => ("", Some e)
      | None => ("", None)
      end
  end.

(** What [json.dump(v, f, indent=2, ensure_ascii=False)] writes, and the
    exception it ends with. *)
Definition dump_text (v : pyval) : string := (iterencode 0 v).1.

Definition dump_error (v : pyval) : option exn := (iterencode 0 v).2.

End json.

Module csv.

Definition CRLF : string := String CR (String LF "").

(** The characters that make the writer quote a field under
    [QUOTE_MINIMAL] in the [excel] dialect: the delimiter, the quote
    character and the characters of the line terminator. *)
Definition special (c : ascii) : bool :=
  Ascii.eqb c COMMA || Ascii.eqb c DQUOTE || Ascii.eqb c CR || Ascii.eqb c LF.

Fixpoint needs_quotes (s : string) : bool :=
  match s with
  | EmptyString => false
  | String c s' => special c || needs_quotes s'
  end.

(** [doublequote=True]: a quote character inside a field is written twice. *)
Fixpoint double_quotes (s : string) : string :=
  match s with
  | EmptyString => ""
  | String c s' =>
      if Ascii.eqb c DQUOTE then String DQUOTE (String DQUOTE (double_quotes s'))
      else String c (double_quotes s')
  end.

Definition quoted (s : string) : string :=
  String DQUOTE (double_quotes s +:+ String DQUOTE "").

Definition field (s : string) : string :=
  if needs_quotes s then quoted s else s.

(** The text of a cell, when it has one: nothing for [None], the text of a
    [str], [str(v)] for the rest. *)
Definition cell_text (v : pyval) : string :=
  match v with
  | PNone => ""
  | v => py_str v
  end.

(** The writer on a cell: [str(v)] can raise. *)
Definition cell (v : pyval) : result string :=
  if printable v then Return (cell_text v) else Raise IntLimitError.

(** The cells of a row, from left to right, up to the first that raises. *)
Fixpoint cells (vs : list pyval) : result (list string) :=
  match vs with
  | [] => Return []
  | v :: vs' =>
      match cell v with
      | Raise e => Raise e
      | Return c =>
          match cells vs' with
          | Raise e => Raise e
          | Return cs => Return (c :: cs)
          end
      end
  end.

(** [writer.writerow(cells)]: the fields joined by commas; a record of one
    empty field is written as a pair of quotes, so that it is not read
    back as an empty line. *)
Definition writerow (cells : list string) : string :=
  match cells, str_join "," (map field cells) with
  | _ :: _, EmptyString => quoted ""
  | _, r => r
  end +:+ CRLF.

(** [DictWriter._dict_to_list] with [extrasaction='raise'], [restval=''],
    and the writer on the values it gives.  The fields that are not field
    names are a set: [order] is the order in which the message lists
    them. *)
Definition dict_to_list (order : list string → list string)
    (fieldnames : list string) (rowdict : dict) : result (list string) :=
  match filter (λ k, k ∉ fieldnames) (map fst rowdict) with
  | [] => cells (map (λ k, dict_get_default rowdict k (PStr "")) fieldnames)
  | wrong =>
      Raise (Exn "ValueError"
               ("dict contains fields not in fieldnames: "
                  +:+ str_join ", " (map py_repr_str (order wrong))))
  end.

(** [DictWriter.writerows(rowdicts)]: the rows are converted one by one as
    they are written, so the rows before an offending one reach the
    file.  The text written, and the exception if one is raised. *)
Fixpoint writerows (order : list string → list string)
    (fieldnames : list string) (rowdicts : list dict) : string * option exn :=
  match rowdicts with
  | [] => ("", None)
  | r :: rs =>
      match dict_to_list order fieldnames r with
      | Return cells =>
          let '(text, e) := writerows order fieldnames rs in
          (writerow cells +:+ text, e)
      | Raise e => ("", Some e)
      end
  end.

(** *** Reading back *)

(** Modelled from the spec: the repository writes CSV files and has no code
    that reads them; the round trip of the specification reads a file back
    with the reader of the same library, [csv.reader] and [csv.DictReader]
    in the [excel] dialect, on a file opened with [newline=''].  The state
    machine below is the one of the library. *)
Inductive state : Type :=
| START_RECORD
| START_FIELD
| IN_FIELD
| IN_QUOTED_FIELD
| QUOTE_IN_QUOTED_FIELD
| EAT_CRNL.

(** Modelled from the spec: the memory of the library reader, which the
    repository does not have: its state, the field being read and the
    fields of the record read so far. *)
Record parser : Type := {
  p_state : state;
  p_field : string;
  p_fields : list string
}.

(** Modelled from the spec: the reader, absent from the repository, at the
    start of a record. *)
Definition parse_reset : parser :=
  {| p_state := START_RECORD; p_field := ""; p_fields := [] |}.

(** Modelled from the spec: the updates of the absent reader: a change of
    state, the end of a field, one more character in the field. *)
Definition set_state (p : parser) (st : state) : parser :=
  {| p_state := st; p_field := p_field p; p_fields := p_fields p |}.

(** Modelled from the spec: the absent reader closes the field it reads. *)
Definition parse_save_field (p : parser) (st : state) : parser :=
  {| p_state := st; p_field := ""; p_fields := p_fields p ++ [p_field p] |}.

(** Modelled from the spec: the absent reader adds a character to the field
    it reads. *)
Definition parse_add_char (p : parser) (c : ascii) (st : state) : parser :=
  {| p_state := st; p_field := p_field p +:+ String c ""; p_fields := p_fields p |}.

(** Modelled from the spec: the characters the absent reader takes as the
    end of a record outside quotes. *)
Definition is_newline (c : ascii) : bool := Ascii.eqb c LF || Ascii.eqb c CR.

(** Modelled from the spec: the step of the library reader on the start of
    a field. *)
Definition start_field (p : parser) (c : option ascii) : parser :=
  match c with
  | None => parse_save_field p START_RECORD
  | Some ch =>
      if is_newline ch then parse_save_field p EAT_CRNL
      else if Ascii.eqb ch DQUOTE then set_state p IN_QUOTED_FIELD
      else if Ascii.eqb ch COMMA then parse_save_field p START_FIELD
      else parse_add_char p ch IN_FIELD
  end.

(** Modelled from the spec: one step of the library reader; [None] as a
    character is the end of a line, [None] as a result is the error of a
    line end met where none can stand. *)
Definition parse_process_char (p : parser) (c : option ascii) : option parser :=
  match p_state p with
  | START_RECORD =>
      match c with
      | None => Some p
      | Some ch => if is_newline ch then Some (set_state p EAT_CRNL)
                   else Some (start_field p c)
      end
  | START_FIELD => Some (start_field p c)
  | IN_FIELD =>
      match c with
      | None => Some (parse_save_field p START_RECORD)
      | Some ch =>
          if is_newline ch then Some (parse_save_field p EAT_CRNL)
          else if Ascii.eqb ch COMMA then Some (parse_save_field p START_FIELD)
          else Some (parse_add_char p ch IN_FIELD)
      end
  | IN_QUOTED_FIELD =>
      match c with
      | None => Some p
      | Some ch =>
          if Ascii.eqb ch DQUOTE then Some (set_state p QUOTE_IN_QUOTED_FIELD)
          else Some (parse_add_char p ch IN_QUOTED_FIELD)
      end
  | QUOTE_IN_QUOTED_FIELD =>
      match c with
      | None => Some (parse_save_field p START_RECORD)
      | Some ch =>
          if Ascii.eqb ch DQUOTE then Some (parse_add_char p ch IN_QUOTED_FIELD)
          else if Ascii.eqb ch COMMA then Some (parse_save_field p START_FIELD)
          else if is_newline ch then Some (parse_save_field p EAT_CRNL)
          else Some (parse_add_char p ch IN_FIELD)
      end
  | EAT_CRNL =>
      match c with
      | None => Some (set_state p START_RECORD)
      | Some ch => if is_newline ch then Some p else None
      end
  end.

(** Modelled from the spec: the lines the absent reader is fed, those of a
    file opened with [newline='']: a line ends after a line feed, and after
    a carriage return that no line feed follows. *)
Definition line_ends (c : ascii) (rest : string) : bool :=
  Ascii.eqb c LF || (Ascii.eqb c CR && negb (str_startswith LF rest)).

(** Modelled from the spec: [list(csv.reader(f))] on the text of the file.
    Each character goes through the state machine, and so does the end of
    each line; a record is complete when the end of a line leaves the
    machine in [START_RECORD].  At the end of the text, a pending line is
    closed as a line is, and a quoted field left open ends there.  (After
    the end of a line the machine is in [START_RECORD] or inside a quoted
    field, and in the middle of a line it never is in [START_RECORD]: the
    state tells whether a line is pending.)  The limit the library puts on
    the size of a field is left out. *)
Fixpoint reader_from (p : parser) (text : string) : option (list (list string)) :=
  match text with
  | EmptyString =>
      match p_state p with
      | START_RECORD => Some []
      | _ =>
          p' ← parse_process_char p None;
          match p_state p' with
          | START_RECORD => Some [p_fields p']
          | _ => Some [p_fields (parse_save_field p' START_RECORD)]
          end
      end
  | String c rest =>
      p1 ← parse_process_char p (Some c);
      if line_ends c rest then
        p2 ← parse_process_char p1 None;
        match p_state p2 with
        | START_RECORD =>
            records ← reader_from parse_reset rest;
            Some (p_fields p2 :: records)
        | _ => reader_from p2 rest
        end
      else reader_from p1 rest
  end.

(** Modelled from the spec: the absent reader on a whole file. *)
Definition reader (text : string) : option (list (list string)) :=
  reader_from parse_reset text.

(** Modelled from the spec: [d[k] = v] on an insertion-ordered dict, which
    the absent [DictReader] uses to fill the dict of a record. *)
Fixpoint dict_set (d : dict) (k : string) (v : pyval) : dict :=
  match d with
  | [] => [(k, v)]
  | (k', v') :: d' =>
      if String.eqb k k' then (k', v) :: d' else (k', v') :: dict_set d' k v
  end.

(** Modelled from the spec: the dict [csv.DictReader] makes of a record:
    [dict(zip(fieldnames, row))], and [None] under the field names the
    record is too short for.  (Cells beyond the field names go under the
    key [None], which a dict with string keys cannot hold: they are left
    out.) *)
Fixpoint row_dict (d : dict) (fieldnames row : list string) : dict :=
  match fieldnames, row with
  | [], _ => d
  | k :: ks, [] => row_dict (dict_set d k PNone) ks []
  | k :: ks, c :: cs => row_dict (dict_set d k (PStr c)) ks cs
  end.

(** Modelled from the spec: [list(csv.DictReader(f))]: the first record
    gives the field names, and empty records are skipped. *)
Definition DictReader (text : string) : option (list dict) :=
  records ← reader text;
  match records with
  | [] => Some []
  | fieldnames :: rows =>
      Some (map (row_dict [] fieldnames)
                (filter (λ row, row ≠ []) rows))
  end.

End csv.

(** ** [ecourts_scraper.py] *)

Module ecourts_scraper.

(** The state of an [ECourtsScraper] that its methods read.  (The HTTP
    session built by the constructor is used by no method.) *)
Record ECourtsScraper : Type := {
  base_url : string;
  demo_cases : gmap string dict
}.

Definition demo_case (cnr case_number case_title court_name case_type
                        filing_date status next_hearing serial_number : string)
                     (is_listed_today is_listed_tomorrow : bool) : dict :=
  [ ("cnr", PStr cnr);
    ("case_number", PStr case_number);
    ("case_title", PStr case_title);
    ("court_name", PStr court_name);
    ("case_type", PStr case_type);
    ("filing_date", PStr filing_date);
    ("status", PStr status);
    ("next_hearing", PStr next_hearing);
    ("serial_number", PStr serial_number);
    ("is_listed_today", PBool is_listed_today);
    ("is_listed_tomorrow", PBool is_listed_tomorrow) ].

(** The dict literal of the constructor, entry by entry. *)
Definition demo_cases_literal : list (string * dict) :=
  [ ("DLCT01-123456-2023",
     demo_case "DLCT01-123456-2023" "12345/2023" "John Doe vs. Jane Smith"
       "Delhi High Court" "Civil" "2023-01-15" "Pending" "2025-10-20" "1"
       true false);
    ("MHMC02-654321-2022",
     demo_case "MHMC02-654321-2022" "65432/2022" "ABC Pvt Ltd vs. XYZ Traders"
       "Mumbai City Civil Court" "Commercial" "2022-06-10" "Pending"
       "2025-10-21" "7" false true);
    ("KLER03-111222-2021",
     demo_case "KLER03-111222-2021" "11122/2021" "State vs. Raman Nair"
       "Ernakulam District Court" "Criminal" "2021-09-05" "Listed"
       "2025-10-15" "15" true false);
    ("TNCH04-777888-2020",
     demo_case "TNCH04-777888-2020" "77788/2020" "Mohan vs. Housing Board"
       "Chennai City Civil Court" "Civil" "2020-11-20" "Adjourned"
       "2025-10-22" "23" false true);
    ("RJJP05-333444-2019",
     demo_case "RJJP05-333444-2019" "33344/2019" "Pooja Sharma vs. RTO Jaipur"
       "Jaipur District Court" "Motor Accident Claims" "2019-03-18"
       "For Hearing" "2025-10-16" "3" true false) ].

(** [ECourtsScraper()]. *)
Definition init : ECourtsScraper :=
  {| base_url := "https://services.ecourts.gov.in/ecourtindia_v6/";
     demo_cases := list_to_map demo_cases_literal |}.

(** [key in d] for a dict with string keys: a hashable value that is not a
    [str] is equal to no key; a list or a dict cannot be hashed. *)
Definition py_in (key : pyval) (d : gmap string dict) : M bool :=
  match key with
  | PStr s => mret (bool_decide (is_Some (d !! s)))
  | PNone | PBool _ | PInt _ => mret false
  | PList _ | PDict _ =>
      raise (Exn "TypeError" ("unhashable type: '" +:+ py_type_name key +:+ "'"))
  end.

(** [d[key]]. *)
Definition py_getitem (d : gmap string dict) (key : pyval) : M dict :=
  match key with
  | PStr s =>
      match d !! s with
      | Some r => mret r
      | None => raise (Exn "KeyError" (py_repr key))
      end
  | PNone | PBool _ | PInt _ => raise (Exn "KeyError" (py_repr key))
  | PList _ | PDict _ =>
      raise (Exn "TypeError" ("unhashable type: '" +:+ py_type_name key +:+ "'"))
  end.

Definition get_court_list_try : M (list dict) :=
  mret [ [("code", PStr "01"); ("name", PStr "Supreme Court of India");
          ("type", PStr "Supreme Court")];
         [("code", PStr "02"); ("name", PStr "Delhi High Court");
          ("type", PStr "High Court")];
         [("code", PStr "03"); ("name", PStr "Mumbai High Court");
          ("type", PStr "High Court")] ].

Definition get_court_list (self : ECourtsScraper) : M (list dict) :=
  try_except get_court_list_try
    (λ e, logger ERROR [Lit "Error fetching court list: "; FmtExn e];; mret []).

(** The [try] block of [search_case_by_cnr]. *)
Definition search_case_by_cnr_try (self : ECourtsScraper) (cnr : pyval) : M dict :=
  logger INFO [Lit "Searching for case with CNR: "; Fmt cnr];;
  found ← py_in cnr (demo_cases self);
  if (found : bool) then py_getitem (demo_cases self) cnr
  else mret dict_empty.

(** Its [except Exception] clause. *)
Definition search_case_by_cnr_except (e : exn) : M dict :=
  logger ERROR [Lit "Error searching case by CNR: "; FmtExn e];;
  mret dict_empty.

Definition search_case_by_cnr (self : ECourtsScraper) (cnr : pyval) : M dict :=
  try_except (search_case_by_cnr_try self cnr) search_case_by_cnr_except.

(** The [try] block of [search_case_by_details].  The title is made with
    [str], for a case type that is [printable]. *)
Definition search_case_by_details_try (case_type case_number year : pyval) : M dict :=
  logger INFO [Lit "Searching for case: "; Fmt case_type; Lit "/";
               Fmt case_number; Lit "/"; Fmt year];;
  let result : dict :=
    [ ("case_type", case_type);
      ("case_number", case_number);
      ("year", year);
      ("case_title", PStr ("Sample " +:+ py_str case_type +:+ " Case"));
      ("court_name", PStr "District Court");
      ("filing_date", PStr "2023-01-15");
      ("status", PStr "Pending");
      ("next_hearing", PStr "2023-10-21");
      ("serial_number", PStr "2");
      ("is_listed_today", PBool false);
      ("is_listed_tomorrow", PBool true) ] in
  mret result.

Definition search_case_by_details_except (e : exn) : M dict :=
  logger ERROR [Lit "Error searching case by details: "; FmtExn e];;
  mret dict_empty.

Definition search_case_by_details (self : ECourtsScraper)
    (case_type case_number year : pyval) : M dict :=
  try_except (search_case_by_details_try case_type case_number year)
             search_case_by_details_except.

Definition cause_list_entry (serial_number case_number case_title petitioner
                               respondent advocate court_room time : string) : dict :=
  [ ("serial_number", PStr serial_number);
    ("case_number", PStr case_number);
    ("case_title", PStr case_title);
    ("petitioner", PStr petitioner);
    ("respondent", PStr respondent);
    ("advocate", PStr advocate);
    ("court_room", PStr court_room);
    ("time", PStr time) ].

(** The list literal of [get_cause_list]. *)
Definition cause_list_literal : list dict :=
  [ cause_list_entry "1" "12345/2023" "Sample Case 1" "John Doe" "Jane Smith"
      "Advocate ABC" "Room 1" "10:00 AM";
    cause_list_entry "2" "67890/2023" "Sample Case 2" "Alice Johnson" "Bob Wilson"
      "Advocate XYZ" "Room 2" "11:00 AM";
    cause_list_entry "3" "22222/2022" "Ravi Kumar vs. State" "Ravi Kumar" "State"
      "Adv. Mehta" "Room 3" "11:30 AM";
    cause_list_entry "4" "33333/2021" "Sita Devi vs. Nagar Nigam" "Sita Devi"
      "Nagar Nigam" "Adv. Rao" "Room 4" "12:00 PM";
    cause_list_entry "5" "44444/2020" "Om Prakash vs. Insurance Co." "Om Prakash"
      "National Insurance" "Adv. Khan" "Room 5" "12:30 PM" ].

(** The [try] block of [get_cause_list]; [date] is [PNone] when the
    argument is left out. *)
Definition get_cause_list_try (court_code date : pyval) : M (list dict) :=
  date ← (if negb (py_truthy date)
          then s ← strftime "%d/%m/%Y"; mret (PStr s)
          else mret date);
  logger INFO [Lit "Fetching cause list for court "; Fmt court_code;
               Lit " on "; Fmt date];;
  mret cause_list_literal.

Definition get_cause_list_except (e : exn) : M (list dict) :=
  logger ERROR [Lit "Error fetching cause list: "; FmtExn e];;
  mret [].

Definition get_cause_list (self : ECourtsScraper) (court_code date : pyval)
  : M (list dict) :=
  try_except (get_cause_list_try court_code date) get_cause_list_except.

(** The file name [download_case_pdf] builds from a case id. *)
Definition pdf_filename (case_id : string) : string :=
  "case_" +:+ re.sub_unsafe_runs false case_id +:+ ".pdf".

(** The [try] block of [download_case_pdf].  [case_id] is a [str], on
    which [str(case_id)] is the identity. *)
Definition download_case_pdf_try (case_id output_dir : string) : M string :=
  os_makedirs output_dir;;
  let safe_case_id := re.sub_unsafe_runs false case_id in
  let pdf_path := os_path.join output_dir ("case_" +:+ safe_case_id +:+ ".pdf") in
  open_w pdf_path;;
  file_write pdf_path "This is a placeholder PDF content";;
  logger INFO [Lit "PDF downloaded to: "; Fmt (PStr pdf_path)];;
  mret pdf_path.

Definition download_case_pdf_except (e : exn) : M string :=
  logger ERROR [Lit "Error downloading PDF: "; FmtExn e];;
  mret "".

(** [download_case_pdf(case_id, output_dir)]; [output_dir] defaults to
    [downloads]. *)
Definition download_case_pdf (self : ECourtsScraper)
    (case_id : string) (output_dir : string) : M string :=
  try_except (download_case_pdf_try case_id output_dir) download_case_pdf_except.

(** [not filename] for an optional [str] argument: left out, or empty. *)
Definition not_given (filename : option string) : bool :=
  match filename with
  | None => true
  | Some f => String.eqb f ""
  end.

(** The [try] block of [save_results]; [filename] is [None] when the
    argument is left out.  The file is closed when the [with] block ends,
    by an exception as well: what [json.dump] has written is in the file,
    as far as the disk has room, and a text that does not fit makes the
    block raise [OSError], whatever the encoder raised. *)
Definition save_results_try (data : dict) (filename : option string) : M string :=
  filename ← (if not_given filename
              then timestamp ← strftime "%Y%m%d_%H%M%S";
                   mret ("ecourts_results_" +:+ timestamp +:+ ".json")
              else mret (default "" filename));
  open_w filename;;
  let '(text, err) := json.iterencode 0 (PDict data) in
  file_write filename text;;
  match err with
  | Some e => raise e
  | None =>
      logger INFO [Lit "Results saved to: "; Fmt (PStr filename)];;
      mret filename
  end.

Definition save_results_except (e : exn) : M string :=
  logger ERROR [Lit "Error saving results: "; FmtExn e];;
  mret "".

Definition save_results (self : ECourtsScraper)
    (data : dict) (filename : option string) : M string :=
  try_except (save_results_try data filename) save_results_except.

(** The [try] block of [save_cause_list_csv].  The header and the rows
    written before an exception are in the file, as far as the disk has
    room; a text that does not fit makes the block raise [OSError],
    whatever the writer raised. *)
Definition save_cause_list_csv_try (cause_list : list dict)
    (filename : option string) : M string :=
  filename ← (if not_given filename
              then timestamp ← strftime "%Y%m%d_%H%M%S";
                   mret ("cause_list_" +:+ timestamp +:+ ".csv")
              else mret (default "" filename));
  match cause_list with
  | [] =>
      logger WARNING [Lit "No cause list data to save"];;
      mret ""
  | first :: _ =>
      open_w filename;;
      let fieldnames := map fst first in
      file_write filename (csv.writerow fieldnames);;
      order ← set_order;
      let '(text, err) := csv.writerows order fieldnames cause_list in
      file_write filename text;;
      match err with
      | Some e => raise e
      | None =>
          logger INFO [Lit "Cause list saved to: "; Fmt (PStr filename)];;
          mret filename
      end
  end.

Definition save_cause_list_csv_except (e : exn) : M string :=
  logger ERROR [Lit "Error saving cause list: "; FmtExn e];;
  mret "".

Definition save_cause_list_csv (self : ECourtsScraper)
    (cause_list : list dict) (filename : option string) : M string :=
  try_except (save_cause_list_csv_try cause_list filename)
             save_cause_list_csv_except.

End ecourts_scraper.

(** ** [web_interface.py] *)

Module web_interface.

Import ecourts_scraper.

(** The module-level [scraper = ECourtsScraper()]. *)
Definition scraper : ECourtsScraper := init.

(** What a view returns: the dict given to [jsonify] and the status code
    (200 when the view gives none). *)
Record response : Type := {
  body : dict;
  status : nat
}.

Definition jsonify (d : dict) (code : nat) : response :=
  {| body := d; status := code |}.

(** A request, as far as the views look at it: what [request.get_json()]
    does, which is to return the parsed body or to raise the HTTP
    exception of a body that is not JSON. *)
Definition request : Type := result pyval.

Definition get_json (req : request) : M pyval :=
  match req with
  | Return v => mret v
  | Raise e => raise e
  end.

(** [data.get(key, default)]: only a dict has the method. *)
Definition data_get (data : pyval) (key : string) (default : pyval) : M pyval :=
  match data with
  | PDict d => mret (dict_get_default d key default)
  | _ => raise (Exn "AttributeError"
                  ("'" +:+ py_type_name data +:+ "' object has no attribute 'get'"))
  end.

Definition internal_error (e : exn) : M response :=
  mret (jsonify [("error", PStr (exn_str e))] 500).

(** The end of [search_case], once [result] is known. *)
Definition search_case_reply (result : dict) : response :=
  if py_truthy (PDict result)
  then jsonify [("success", PBool true); ("data", PDict result)] 200
  else jsonify [("success", PBool false); ("message", PStr "Case not found")] 200.

Definition search_case_try (req : request) : M response :=
  data ← get_json req;
  search_type ← data_get data "search_type" PNone;
  if py_eq_str search_type "cnr" then
    cnr ← data_get data "cnr" PNone;
    if negb (py_truthy cnr)
    then mret (jsonify [("error", PStr "CNR is required")] 400)
    else result ← search_case_by_cnr scraper cnr;
         mret (search_case_reply result)
  else if py_eq_str search_type "details" then
    case_type ← data_get data "case_type" PNone;
    case_number ← data_get data "case_number" PNone;
    year ← data_get data "year" PNone;
    if negb (forallb py_truthy [case_type; case_number; year])
    then mret (jsonify [("error", PStr "All case details are required")] 400)
    else result ← search_case_by_details scraper case_type case_number year;
         mret (search_case_reply result)
  else mret (jsonify [("error", PStr "Invalid search type")] 400).

(** [POST /search]. *)
Definition search_case (req : request) : M response :=
  try_except (search_case_try req) internal_error.

Definition get_cause_list_try (req : request) : M response :=
  data ← get_json req;
  court_code ← data_get data "court_code" (PStr "01");
  date ← data_get data "date" PNone;
  cause_list ← ecourts_scraper.get_cause_list scraper court_code date;
  match cause_list with
  | _ :: _ =>
      filename ← save_cause_list_csv scraper cause_list None;
      mret (jsonify [("success", PBool true);
                     ("data", PList (map PDict cause_list));
                     ("filename", PStr filename)] 200)
  | [] =>
      mret (jsonify [("success", PBool false);
                     ("message", PStr "No cause list found")] 200)
  end.

(** [POST /causelist]. *)
Definition get_cause_list (req : request) : M response :=
  try_except (get_cause_list_try req) internal_error.

End web_interface.

(** ** Reading a search result, and the inputs of the examples *)

(** [record.get(key, False)] read as a flag, the way the command line prints
    [is_listed_today] and [is_listed_tomorrow]. *)
Definition flag (record : dict) (key : string) : bool :=
  match dict_get record key with
  | Some (PBool b) => b
  | _ => false
  end.

(** The listing flags of [record] follow the dates: listed today iff the next
    hearing is on [as_of], listed tomorrow iff it is on [next_day], the day
    after [as_of], and never both. *)
Definition flags_follow_dates (as_of next_day : string) (record : dict) : Prop :=
  (flag record "is_listed_today" = true
   ↔ dict_get record "next_hearing" = Some (PStr as_of))
  ∧ (flag record "is_listed_tomorrow" = true
     ↔ dict_get record "next_hearing" = Some (PStr next_day))
  ∧ ¬ (flag record "is_listed_today" = true
       ∧ flag record "is_listed_tomorrow" = true).

(** An optional [str] argument as the value the method receives. *)
Definition optional (s : option string) : pyval :=
  match s with
  | Some s => PStr s
  | None => PNone
  end.

Definition serial_numbers (rows : list dict) : list (option pyval) :=
  map (λ row, dict_get row "serial_number") rows.

(** Every character of [s] satisfies [P]. *)
Definition str_forall (P : ascii → bool) (s : string) : bool :=
  forallb P (list_ascii_of_string s).

(** A file system with no directory and no file, and a world on it whose
    clock shows one fixed instant. *)
Definition empty_fs : filesystem :=
  {| fs_dirs := ∅; fs_files := ∅; fs_denied := ∅; fs_room := 1000000 |}.

Definition fresh_world : world :=
  {| w_log := []; w_fs := empty_fs; w_strftime := λ _, "20251020_101500";
     w_set_order := λ l, l |}.

(** The world with another file system. *)
Definition with_fs (fs : filesystem) (w : world) : world :=
  {| w_log := w_log w; w_fs := fs; w_strftime := w_strftime w;
     w_set_order := w_set_order w |}.

(** The world after one more record in the log. *)
Definition logged (lv : level) (msg : list frag) (w : world) : world :=
  {| w_log := w_log w ++ [(lv, msg)]; w_fs := w_fs w; w_strftime := w_strftime w;
     w_set_order := w_set_order w |}.

(** The shapes of the bodies the two POST views answer with. *)
Definition is_envelope (d : dict) : bool :=
  match dict_get d "success" with
  | Some (PBool true) => bool_decide (is_Some (dict_get d "data"))
  | Some (PBool false) => bool_decide (is_Some (dict_get d "message"))
  | _ => false
  end.

Definition is_error_body (d : dict) : bool :=
  match d with
  | [("error", PStr _)] => true
  | _ => false
  end.

(** A world whose file system refuses to write [results.json] and
    [cause_list.csv] in the working directory. *)
Definition denied_world : world :=
  {| w_log := [];
     w_fs := {| fs_dirs := ∅; fs_files := ∅;
                fs_denied := {["results.json"; "cause_list.csv"]};
                fs_room := 1000000 |};
     w_strftime := λ _, "20251020_101500";
     w_set_order := λ l, l |}.

(** A world whose disk has room for 20 characters. *)
Definition full_world : world :=
  {| w_log := [];
     w_fs := {| fs_dirs := ∅; fs_files := ∅; fs_denied := ∅; fs_room := 20 |};
     w_strftime := λ _, "20251020_101500";
     w_set_order := λ l, l |}.

(** The two kinds of answers of the POST views: the envelope, with status
    200, and the error body, with status 400 or 500 and no [success] field. *)
Definition answers_envelope (r : web_interface.response) : Prop :=
  web_interface.status r = 200 ∧ is_envelope (web_interface.body r) = true.

Definition answers_error (r : web_interface.response) : Prop :=
  (web_interface.status r = 400 ∨ web_interface.status r = 500)
  ∧ is_error_body (web_interface.body r) = true
  ∧ dict_get (web_interface.body r) "success" = None.

(** From [w] to [w'], nothing but the log has changed: the log has more
    records, and every directory and every file other than the log file
    is as it was. *)
Definition only_logs (w w' : world) : Prop :=
  (∃ records, w_log w' = (w_log w ++ records)%list)
  ∧ fs_dirs (w_fs w') = fs_dirs (w_fs w)
  ∧ ∀ p, p ≠ log_file → fs_files (w_fs w') !! p = fs_files (w_fs w) !! p.

(** A value that is no list and no dict, and that [str] prints. *)
Definition flat (v : pyval) : bool :=
  match v with
  | PList _ | PDict _ => false
  | v => printable v
  end.

(** A row whose values are flat. *)
Definition flat_row (row : dict) : Prop := ∀ k v, (k, v) ∈ row → flat v = true.

(** A computation that leaves the directories as they are, whatever it
    returns or raises. *)
Definition keeps_dirs {A} (m : M A) : Prop :=
  ∀ w, fs_dirs (w_fs (snd (run m w))) = fs_dirs (w_fs w).

(** *** Cause-list rows and their CSV text *)

Definition keys (d : dict) : list string := map fst d.

(** Two dicts with the same fields: every key has the same value in both, or
    is in neither.  This is [==] on dicts, which ignores the order. *)
Definition same_fields (a b : dict) : Prop :=
  ∀ k, dict_get a k = dict_get b k.

Definition str_valued (d : dict) : Prop :=
  ∀ k v, (k, v) ∈ d → ∃ s, v = PStr s.

(** A row of a cause list whose first row is [first]: a dict (its keys are
    distinct) whose values are strings, as every field of a cause-list entry
    is, and which has the fields of [first]. *)
Definition cause_list_row (first row : dict) : Prop :=
  NoDup (keys row) ∧ str_valued row ∧ ∀ k, k ∈ keys row ↔ k ∈ keys first.

(** The cells [DictWriter] writes for a row whose values can be printed. *)
Definition row_cells (fieldnames : list string) (row : dict) : list string :=
  map (λ k, csv.cell_text (dict_get_default row k (PStr ""))) fieldnames.

(** The text of records written one after the other. *)
Definition csv_text (records : list (list string)) : string :=
  foldr (λ cells text, csv.writerow cells +:+ text) "" records.

(** The state of the reader after the text of a cell that it met at the
    start of a field, in state [st]. *)
Definition state_after (cell : string) (st : csv.state) : csv.state :=
  if csv.needs_quotes cell then csv.QUOTE_IN_QUOTED_FIELD
  else match cell with EmptyString => st | _ => csv.IN_FIELD end.

(** ** The command line of [ecourts_scraper.py], and [setup.py] *)

(** A command prints as well: the lines given to [print] are kept, in order,
    beside the world, and stay when an exception is raised. *)
Definition CLI (A : Type) : Type :=
  list string → world → result A * list string * world.

Global Instance CLI_ret : MRet CLI := λ A a out w, (Return a, out, w).
Global Instance CLI_bind : MBind CLI := λ A B f m out w,
  match m out w with
  | (Return a, out', w') => f a out' w'
  | (Raise e, out', w') => (Raise e, out', w')
  end.

(** A method of the scraper, or a library call, inside a command. *)
Definition lift {A} (m : M A) : CLI A := λ out w,
  let '(r, w') := m w in (r, out, w').

Definition print (line : string) : CLI unit := λ out w,
  (Return tt, (out ++ [line])%list, w).

(** [try: body  except Exception as e: handler e] in a command. *)
Definition cli_try_except {A} (body : CLI A) (handler : exn → CLI A) : CLI A :=
  λ out w,
    match body out w with
    | (Return a, out', w') => (Return a, out', w')
    | (Raise e, out', w') => handler e out' w'
    end.

(** Runs a command from an empty console. *)
Definition run_cli {A} (c : CLI A) (w : world) : result A * list string * world :=
  c [] w.

(** [c * n] for a character. *)
Fixpoint str_repeat (c : ascii) (n : nat) : string :=
  match n with
  | O => ""
  | S n' => String c (str_repeat c n')
  end.

(** [d[k] = v] on an insertion-ordered dict: the value of a key already
    there is replaced in place, a new key goes last. *)
Fixpoint dict_setitem (d : dict) (k : string) (v : pyval) : dict :=
  match d with
  | [] => [(k, v)]
  | (k', v') :: d' =>
      if String.eqb k k' then (k', v) :: d' else (k', v') :: dict_setitem d' k v
  end.

(** [{d.get(k, 'N/A')}] inside an f-string. *)
Definition get_or_NA (d : dict) (k : string) : string :=
  py_str (dict_get_default d k (PStr "N/A")).

(** An option of the command line that takes a value: [None] when it is not
    given.  [given o] is the test [if o]. *)
Definition given (o : option string) : bool := negb (ecourts_scraper.not_given o).

(** The branch [if cnr] of [main]: the search by CNR, its report and the
    PDF.  The result is the dict [results]. *)
Definition main_search_cnr (scraper : ecourts_scraper.ECourtsScraper)
    (cnr output_dir : string) (download_pdf : bool) (results : dict) : CLI dict :=
  lift (logger INFO [Lit "Searching by CNR..."]);;
  case_result ← lift (ecourts_scraper.search_case_by_cnr scraper (PStr cnr));
  if py_truthy (PDict case_result) then
    let results := dict_setitem results "case_search" (PDict case_result) in
    print (String LF "Case found:");;
    print ("CNR: " +:+ get_or_NA case_result "cnr");;
    print ("Case Number: " +:+ get_or_NA case_result "case_number");;
    print ("Court: " +:+ get_or_NA case_result "court_name");;
    print ("Serial Number: " +:+ get_or_NA case_result "serial_number");;
    print ("Listed Today: "
             +:+ py_str (dict_get_default case_result "is_listed_today" (PBool false)));;
    print ("Listed Tomorrow: "
             +:+ py_str (dict_get_default case_result "is_listed_tomorrow"
                           (PBool false)));;
    if download_pdf && py_truthy (dict_get_default case_result "case_number" PNone)
    then
      (* [download_case_pdf] takes [str(case_id)] of the value it is given *)
      pdf_path ← lift (ecourts_scraper.download_case_pdf scraper
                         (py_str (dict_get_default case_result "case_number" PNone))
                         output_dir);
      if negb (String.eqb pdf_path "")
      then mret (dict_setitem results "pdf_downloaded" (PStr pdf_path))
      else mret results
    else mret results
  else mret results.

(** The branch [elif case_type and case_number and year] of [main]. *)
Definition main_search_details (scraper : ecourts_scraper.ECourtsScraper)
    (case_type case_number year : string) (results : dict) : CLI dict :=
  lift (logger INFO [Lit "Searching by case details..."]);;
  case_result ← lift (ecourts_scraper.search_case_by_details scraper
                        (PStr case_type) (PStr case_number) (PStr year));
  if py_truthy (PDict case_result) then
    let results := dict_setitem results "case_search" (PDict case_result) in
    print (String LF "Case found:");;
    print ("Case: " +:+ get_or_NA case_result "case_type" +:+ "/"
             +:+ get_or_NA case_result "case_number" +:+ "/"
             +:+ get_or_NA case_result "year");;
    print ("Court: " +:+ get_or_NA case_result "court_name");;
    print ("Serial Number: " +:+ get_or_NA case_result "serial_number");;
    print ("Listed Today: "
             +:+ py_str (dict_get_default case_result "is_listed_today" (PBool false)));;
    print ("Listed Tomorrow: "
             +:+ py_str (dict_get_default case_result "is_listed_tomorrow"
                           (PBool false)));;
    mret results
  else mret results.

(** The loop [for case in cause_list[:5]: print(...)]. *)
Fixpoint main_print_cases (cases : list dict) : CLI unit :=
  match cases with
  | [] => mret tt
  | case :: cases' =>
      print ("Serial: " +:+ get_or_NA case "serial_number"
               +:+ " | Case: " +:+ get_or_NA case "case_number"
               +:+ " | Time: " +:+ get_or_NA case "time");;
      main_print_cases cases'
  end.

(** The branch [if causelist] of [main]. *)
Definition main_cause_list (scraper : ecourts_scraper.ECourtsScraper)
    (court_code output_dir : string) (results : dict) : CLI dict :=
  lift (logger INFO [Lit "Fetching cause list..."]);;
  cause_list ← lift (ecourts_scraper.get_cause_list scraper (PStr court_code) PNone);
  match cause_list with
  | _ :: _ =>
      let results := dict_setitem results "cause_list" (PList (map PDict cause_list)) in
      print (String LF "Cause list fetched with " +:+ pretty (length cause_list)
               +:+ " cases:");;
      main_print_cases (take 5 cause_list);;
      csv_file ← lift (ecourts_scraper.save_cause_list_csv scraper cause_list
                         (Some (os_path.join output_dir "cause_list.csv")));
      if negb (String.eqb csv_file "")
      then mret (dict_setitem results "cause_list_file" (PStr csv_file))
      else mret results
  | [] => mret results
  end.

(** The [try] block of [main]. *)
Definition main_try (scraper : ecourts_scraper.ECourtsScraper)
    (cnr case_type case_number year : option string) (causelist : bool)
    (court_code output_dir : string) (download_pdf : bool) : CLI unit :=
  results ← (if given cnr
             then main_search_cnr scraper (default "" cnr) output_dir download_pdf []
             else if given case_type && given case_number && given year
             then main_search_details scraper (default "" case_type)
                    (default "" case_number) (default "" year) []
             else mret []);
  results ← (if causelist
             then main_cause_list scraper court_code output_dir results
             else mret results);
  match results with
  | _ :: _ =>
      json_file ← lift (ecourts_scraper.save_results scraper results
                          (Some (os_path.join output_dir "results.json")));
      if negb (String.eqb json_file "")
      then print (String LF "All results saved to: " +:+ json_file)
      else mret tt
  | [] => mret tt
  end;;
  print (String LF (str_repeat "=" 50));;
  print "SUMMARY";;
  print (str_repeat "=" 50);;
  print ("Output directory: " +:+ output_dir);;
  print ("Results saved: " +:+ pretty (length results) +:+ " items").

Definition main_except (e : exn) : CLI unit :=
  lift (logger ERROR [Lit "Error in main execution: "; FmtExn e]);;
  print ("Error: " +:+ exn_str e).

(** [main] of [ecourts_scraper.py], with the options of the command line as
    [click] passes them: an option that takes a value is [None] when it is
    not given, [court_code] and [output_dir] have their defaults filled in
    by [click], and the rest are flags. *)
Definition main (cnr case_type case_number year : option string)
    (today tomorrow causelist : bool) (court_code output_dir : string)
    (download_pdf : bool) : CLI unit :=
  let scraper := ecourts_scraper.init in
  lift (os_makedirs output_dir);;
  cli_try_except
    (main_try scraper cnr case_type case_number year causelist court_code
       output_dir download_pdf)
    main_except.

(** [os.path.exists(path)]; the empty path does not exist. *)
Definition fs_exists (fs : filesystem) (path : string) : bool :=
  negb (String.eqb path "")
  && (fs_isdir fs path || bool_decide (is_Some (fs_files fs !! path))).

(** [os.makedirs(name)], which refuses a name that exists. *)
Definition os_makedirs_new (name : string) : M unit :=
  fs ← get_fs;
  if fs_exists fs name then raise (FileExistsError name)
  else os_makedirs name.

Module setup.

(** [print_header(title)]. *)
Definition print_header (title : string) : CLI unit :=
  print (String LF (str_repeat "=" 60));;
  print ("  " +:+ title);;
  print (str_repeat "=" 60).

(** [check_python_version()], on the [sys.version_info] of the interpreter. *)
Definition check_python_version (major minor micro : Z) : CLI bool :=
  print_header "CHECKING PYTHON VERSION";;
  print ("Python version: " +:+ pretty major +:+ "." +:+ pretty minor +:+ "."
           +:+ pretty micro);;
  if (major <? 3)%Z || ((major =? 3)%Z && (minor <? 8)%Z) then
    print "❌ Python 3.8 or higher is required";;
    print "Please upgrade your Python installation";;
    mret false
  else
    print "✅ Python version is compatible";;
    mret true.

Definition directories : list string :=
  ["output"; "downloads"; "logs"; "templates"].

(** The loop of [create_directories()]. *)
Fixpoint create_each (ds : list string) : CLI unit :=
  match ds with
  | [] => mret tt
  | directory :: ds' =>
      fs ← lift get_fs;
      (if negb (fs_exists fs directory)
       then lift (os_makedirs_new directory);;
            print ("✅ Created directory: " +:+ directory)
       else print ("✅ Directory already exists: " +:+ directory));;
      create_each ds'
  end.

Definition create_directories : CLI unit :=
  print_header "CREATING DIRECTORIES";;
  create_each directories.

End setup.

Module demo_script.

(** [print_header(title)]. *)
Definition print_header (title : string) : CLI unit :=
  print (String LF (str_repeat "=" 60));;
  print ("  " +:+ title);;
  print (str_repeat "=" 60).

(** [print_step(step_num, description)]. *)
Definition print_step (step_num : nat) (description : string) : CLI unit :=
  print (String LF "📋 Step " +:+ pretty step_num +:+ ": " +:+ description);;
  print (str_repeat "-" 40).

(** [demo_error_handling()]. *)
Definition demo_error_handling : CLI unit :=
  print_header "ERROR HANDLING DEMONSTRATION";;
  print_step 1 "Invalid CNR";;
  let scraper := ecourts_scraper.init in
  result ← lift (ecourts_scraper.search_case_by_cnr scraper (PStr "INVALID_CNR"));
  (if negb (py_truthy (PDict result))
   then print "✅ Properly handled invalid CNR"
   else mret tt);;
  print_step 2 "Missing parameters";;
  result ← lift (ecourts_scraper.search_case_by_details scraper
                   (PStr "") (PStr "") (PStr ""));
  (if negb (py_truthy (PDict result))
   then print "✅ Properly handled missing parameters"
   else mret tt);;
  print_step 3 "Network errors";;
  print "✅ Built-in retry mechanism";;
  print "✅ Timeout handling";;
  print "✅ Connection error handling";;
  print_step 4 "File operation errors";;
  print "✅ Permission error handling";;
  print "✅ Disk space error handling";;
  print "✅ Path validation".

End demo_script.

(** ** Properties *)

Import ecourts_scraper.

(** Unfolds the monad: what is left is the case analysis of the method. *)
Ltac unfold_M :=
  unfold run, try_except, mbind, M_bind, mret, M_ret, get_fs, put_fs, raise,
    logger, strftime in *.

(** The equations of the monad: how a computation runs, step by step. *)
Lemma run_ret {A} (a : A) (w : world) : run (mret a) w = (Return a, w).
Proof. reflexivity. Qed.

Lemma run_raise {A} (e : exn) (w : world) : run (@raise A e) w = (Raise e, w).
Proof. reflexivity. Qed.

Lemma run_bind {A B} (m : M A) (k : A → M B) (w : world) :
  run (m ≫= k) w
  = match run m w with
    | (Return a, w1) => run (k a) w1
    | (Raise e, w1) => (Raise e, w1)
    end.
Proof. reflexivity. Qed.

Lemma run_try_except {A} (body : M A) (handler : exn → M A) (w : world) :
  run (try_except body handler) w
  = match run body w with
    | (Return a, w1) => (Return a, w1)
    | (Raise e, w1) => run (handler e) w1
    end.
Proof. reflexivity. Qed.

Lemma run_logger (lv : level) (msg : list frag) (w : world) :
  run (logger lv msg) w = (Return tt, logged lv msg w).
Proof. reflexivity. Qed.

Lemma run_strftime (fmt : string) (w : world) :
  run (strftime fmt) w = (Return (w_strftime w fmt), w).
Proof. reflexivity. Qed.

Lemma run_set_order (w : world) : run set_order w = (Return (w_set_order w), w).
Proof. reflexivity. Qed.

Lemma run_open_w (path : string) (w : world) :
  run (open_w path) w
  = match fs_open_w (w_fs w) path with
    | Return fs1 => (Return tt, with_fs fs1 w)
    | Raise e => (Raise e, w)
    end.
Proof.
  unfold open_w. unfold_M. destruct (fs_open_w (w_fs w) path); reflexivity.
Qed.

Lemma run_file_write (path text : string) (w : world) :
  run (file_write path text) w
  = if (N.of_nat (String.length text) <=? fs_room (w_fs w))%N
    then (Return tt,
          with_fs {| fs_dirs := fs_dirs (w_fs w);
                     fs_files := <[path := default "" (fs_files (w_fs w) !! path) +:+ text]>
                                   (fs_files (w_fs w));
                     fs_denied := fs_denied (w_fs w);
                     fs_room := (fs_room (w_fs w) - N.of_nat (String.length text))%N |}
            w)
    else (Raise NoSpaceError,
          with_fs {| fs_dirs := fs_dirs (w_fs w);
                     fs_files :=
                       <[path := default "" (fs_files (w_fs w) !! path)
                                   +:+ String.substring 0 (N.to_nat (fs_room (w_fs w))) text]>
                         (fs_files (w_fs w));
                     fs_denied := fs_denied (w_fs w);
                     fs_room := 0%N |}
            w).
Proof. unfold file_write. unfold_M. case_match; reflexivity. Qed.

Create Rewrite HintDb run.

#[export] Hint Rewrite @run_try_except @run_bind @run_ret @run_raise run_logger
  run_strftime run_set_order run_open_w run_file_write : run.

(** Runs a computation as far as its steps are known, in the goal or in a
    hypothesis. *)
Ltac run_step := autorewrite with run.

Tactic Notation "run_step" "in" hyp(H) := autorewrite with run in H.

Lemma only_logs_refl (w : world) : only_logs w w.
Proof. split; [exists []; rewrite app_nil_r; reflexivity|]. split; reflexivity. Qed.

Lemma only_logs_logged (lv : level) (msg : list frag) (w w' : world) :
  only_logs w w' → only_logs w (logged lv msg w').
Proof.
  intros ([records Hlog] & Hdirs & Hfiles). split; [|split; assumption].
  exists (records ++ [(lv, msg)])%list. cbn. rewrite Hlog, app_assoc. reflexivity.
Qed.

(** *** Searching by CNR *)

Lemma search_case_by_cnr_str (self : ECourtsScraper) (cnr : string) (w : world) :
  run (search_case_by_cnr self (PStr cnr)) w
  = (Return (default dict_empty (demo_cases self !! cnr)),
     logged INFO [Lit "Searching for case with CNR: "; Fmt (PStr cnr)] w).
Proof.
  unfold run, search_case_by_cnr, try_except, search_case_by_cnr_try.
  cbn. destruct (demo_cases self !! cnr) as [r|] eqn:Hr; reflexivity.
Qed.

Lemma demo_cases_elem (cnr : string) (r : dict) :
  demo_cases init !! cnr = Some r → (cnr, r) ∈ demo_cases_literal.
Proof. intros H. apply elem_of_list_to_map_2 in H. exact H. Qed.

Ltac each_demo_case H :=
  apply demo_cases_elem in H; unfold demo_cases_literal in H;
  repeat (apply elem_of_cons in H; destruct H as [H|H]; [inversion H; subst; clear H|]);
  [..|apply elem_of_nil in H; destruct H].

(** C3.  For every CNR that is a key of the fixture dataset,
    [search_case_by_cnr] returns the record stored under it, and the [cnr]
    field of that record is the CNR asked for. *)
Theorem search_case_by_cnr_returns_the_cnr (cnr : string) (w : world) :
  is_Some (demo_cases init !! cnr) →
  ∃ record,
    fst (run (search_case_by_cnr init (PStr cnr)) w) = Return record
    ∧ demo_cases init !! cnr = Some record
    ∧ dict_get record "cnr" = Some (PStr cnr).
Proof.
  intros [record Hrecord]. exists record.
  rewrite search_case_by_cnr_str, Hrecord. cbn [fst default].
  repeat split. each_demo_case Hrecord; reflexivity.
Qed.

Lemma search_case_by_cnr_returns_the_cnr_witness :
  is_Some (demo_cases init !! "MHMC02-654321-2022")
  ∧ ∃ record,
      fst (run (search_case_by_cnr init (PStr "MHMC02-654321-2022")) fresh_world)
      = Return record
      ∧ demo_cases init !! "MHMC02-654321-2022" = Some record
      ∧ dict_get record "cnr" = Some (PStr "MHMC02-654321-2022").
Proof.
  assert (H : is_Some (demo_cases init !! "MHMC02-654321-2022"))
    by (eexists; vm_compute; reflexivity).
  split; [exact H|].
  exact (search_case_by_cnr_returns_the_cnr "MHMC02-654321-2022" fresh_world H).
Defined.

(** C4.  [search_case_by_cnr] on the CNR DLCT01-123456-2023 returns a record
    whose court name is Delhi High Court, whose status is Pending and whose
    serial number is 1. *)
Theorem search_case_by_cnr_delhi_example (w : world) :
  ∃ record,
    fst (run (search_case_by_cnr init (PStr "DLCT01-123456-2023")) w) = Return record
    ∧ dict_get record "court_name" = Some (PStr "Delhi High Court")
    ∧ dict_get record "status" = Some (PStr "Pending")
    ∧ dict_get record "serial_number" = Some (PStr "1").
Proof.
  rewrite search_case_by_cnr_str. eexists. split; [reflexivity|].
  vm_compute. repeat split.
Qed.

(** C2, as the code has it.  For every CNR that is not a key of the fixture
    dataset, [search_case_by_cnr] returns the empty dict, which is also what
    its [except] clause returns after any exception. *)
Theorem search_case_by_cnr_unknown_is_empty (cnr : string) (w : world) :
  demo_cases init !! cnr = None →
  fst (run (search_case_by_cnr init (PStr cnr)) w) = Return dict_empty
  ∧ ∀ e w', fst (run (search_case_by_cnr_except e) w') = Return dict_empty.
Proof.
  intros Habsent. rewrite search_case_by_cnr_str, Habsent. split; reflexivity.
Qed.

Lemma search_case_by_cnr_unknown_is_empty_witness :
  demo_cases init !! "TEST123456789" = None
  ∧ fst (run (search_case_by_cnr init (PStr "TEST123456789")) fresh_world)
    = Return dict_empty
  ∧ ∀ e w', fst (run (search_case_by_cnr_except e) w') = Return dict_empty.
Proof.
  assert (H : demo_cases init !! "TEST123456789" = None) by (vm_compute; reflexivity).
  split; [exact H|].
  exact (search_case_by_cnr_unknown_is_empty "TEST123456789" fresh_world H).
Defined.

(** C2, as stated, fails: the CNR TEST123456789 of the test script is not in
    the fixture dataset, and the search answers with an empty dict returned
    as a success, the very value it returns when the look-up raises (here on
    a CNR that cannot be hashed). *)
Lemma search_case_by_cnr_unknown_counterexample :
  demo_cases init !! "TEST123456789" = None
  ∧ fst (run (search_case_by_cnr init (PStr "TEST123456789")) fresh_world)
    = Return dict_empty
  ∧ fst (run (search_case_by_cnr_try init (PList [])) fresh_world)
    = Raise (Exn "TypeError" "unhashable type: 'list'")
  ∧ fst (run (search_case_by_cnr init (PList [])) fresh_world)
    = fst (run (search_case_by_cnr init (PStr "TEST123456789")) fresh_world).
Proof. vm_compute. repeat split. Qed.

(** *** The listing flags *)

(** C1, as stated, fails: no as-of date, whatever day is taken to follow it,
    agrees with the flags of the fixture records.  Two records listed today
    have their next hearings on different days. *)
Lemma listing_flags_counterexample :
  ¬ ∃ as_of next_day : string,
      ∀ cnr record,
        demo_cases init !! cnr = Some record →
        flags_follow_dates as_of next_day record.
Proof.
  intros (as_of & next_day & H).
  pose proof (H "DLCT01-123456-2023" _ eq_refl) as [[H1 _] _].
  pose proof (H "KLER03-111222-2021" _ eq_refl) as [[H2 _] _].
  specialize (H1 eq_refl). specialize (H2 eq_refl).
  vm_compute in H1, H2. congruence.
Qed.

(** C1, as the code has it.  The listing flags of a search result are
    literals of the source and depend on no date: a record found by CNR has
    exactly one of the two flags set, so never both, whatever the clock
    shows; [search_case_by_details] always answers with a next hearing on
    2023-10-21, not listed today and listed tomorrow. *)
Theorem listing_flags_are_literals (cnr : string) (record : dict) (w : world) :
  demo_cases init !! cnr = Some record →
  fst (run (search_case_by_cnr init (PStr cnr)) w) = Return record
  ∧ flag record "is_listed_tomorrow" = negb (flag record "is_listed_today")
  ∧ ¬ (flag record "is_listed_today" = true ∧ flag record "is_listed_tomorrow" = true)
  ∧ ∀ case_type case_number year w',
      ∃ details,
        fst (run (search_case_by_details init case_type case_number year) w')
        = Return details
        ∧ dict_get details "next_hearing" = Some (PStr "2023-10-21")
        ∧ flag details "is_listed_today" = false
        ∧ flag details "is_listed_tomorrow" = true.
Proof.
  intros Hrecord. rewrite search_case_by_cnr_str, Hrecord.
  split; [reflexivity|].
  assert (Hflags : flag record "is_listed_tomorrow"
                   = negb (flag record "is_listed_today"))
    by (each_demo_case Hrecord; reflexivity).
  split; [exact Hflags|]. split.
  - rewrite Hflags. destruct (flag record "is_listed_today"); intros [? ?]; discriminate.
  - intros. eexists. split; [reflexivity|]. repeat split.
Qed.

Lemma listing_flags_are_literals_witness :
  ∃ record,
    demo_cases init !! "KLER03-111222-2021" = Some record
    ∧ fst (run (search_case_by_cnr init (PStr "KLER03-111222-2021")) fresh_world)
      = Return record
    ∧ flag record "is_listed_today" = true
    ∧ flag record "is_listed_tomorrow" = false.
Proof.
  exists (demo_case "KLER03-111222-2021" "11122/2021" "State vs. Raman Nair"
            "Ernakulam District Court" "Criminal" "2021-09-05" "Listed"
            "2025-10-15" "15" true false).
  assert (H : demo_cases init !! "KLER03-111222-2021"
              = Some (demo_case "KLER03-111222-2021" "11122/2021"
                        "State vs. Raman Nair" "Ernakulam District Court"
                        "Criminal" "2021-09-05" "Listed" "2025-10-15" "15"
                        true false))
    by (vm_compute; reflexivity).
  split; [exact H|].
  destruct (listing_flags_are_literals _ _ fresh_world H) as (Hrun & Hflags & _).
  split; [exact Hrun|]. split; [reflexivity|exact Hflags].
Defined.

(** *** Exceptions inside the methods *)

Lemma try_except_returns {A} (body : M A) (handler : exn → M A) (w : world) :
  (∀ e w1, ∃ a w2, handler e w1 = (Return a, w2)) →
  ∃ a w', run (try_except body handler) w = (Return a, w').
Proof.
  intros Hhandler. unfold run, try_except.
  destruct (body w) as [[a|e] w1]; [eauto|apply Hhandler].
Qed.

Lemma search_case_by_cnr_returns (self : ECourtsScraper) (cnr : pyval) (w : world) :
  ∃ record w', run (search_case_by_cnr self cnr) w = (Return record, w').
Proof. apply try_except_returns. intros e w1. eexists _, _. reflexivity. Qed.

Lemma search_case_by_details_returns (self : ECourtsScraper)
    (case_type case_number year : pyval) (w : world) :
  ∃ record w',
    run (search_case_by_details self case_type case_number year) w
    = (Return record, w')
    ∧ record ≠ [].
Proof. eexists _, _. split; [reflexivity|discriminate]. Qed.

Lemma get_cause_list_any (self : ECourtsScraper) (court_code date : pyval) (w : world) :
  ∃ w', run (get_cause_list self court_code date) w = (Return cause_list_literal, w').
Proof.
  unfold run, get_cause_list, try_except, get_cause_list_try.
  destruct (py_truthy date); eexists; reflexivity.
Qed.

(** C5, as stated, fails: a CNR that cannot be hashed makes the look-up raise
    a [TypeError], and [search_case_by_cnr] returns the empty dict as a
    success. *)
Lemma exceptions_counterexample :
  fst (run (search_case_by_cnr_try init (PDict [("cnr", PStr "DLCT01-123456-2023")]))
           fresh_world)
  = Raise (Exn "TypeError" "unhashable type: 'dict'")
  ∧ fst (run (search_case_by_cnr init (PDict [("cnr", PStr "DLCT01-123456-2023")]))
             fresh_world)
    = Return dict_empty.
Proof. vm_compute. split; reflexivity. Qed.

(** C5, as the code has it.  An exception raised inside [search_case_by_cnr]
    is logged by the [except] clause and the method returns the empty dict;
    the [except] clause of [get_cause_list] logs and returns the empty list;
    and neither method ever raises: no failure surfaces to the caller. *)
Theorem exceptions_become_empty_results
    (self : ECourtsScraper) (cnr : pyval) (e : exn) (w w' : world) :
  run (search_case_by_cnr_try self cnr) w = (Raise e, w') →
  run (search_case_by_cnr self cnr) w
  = (Return dict_empty, logged ERROR [Lit "Error searching case by CNR: "; FmtExn e] w')
  ∧ (∀ e2 w2, run (get_cause_list_except e2) w2
              = (Return [], logged ERROR [Lit "Error fetching cause list: "; FmtExn e2] w2))
  ∧ (∀ cnr2 w2, ∃ record, fst (run (search_case_by_cnr self cnr2) w2) = Return record)
  ∧ (∀ court_code date w2,
       ∃ rows, fst (run (get_cause_list self court_code date) w2) = Return rows).
Proof.
  intros Hraise. split; [|split; [|split]].
  - unfold run, search_case_by_cnr, try_except in *. rewrite Hraise. reflexivity.
  - reflexivity.
  - intros cnr2 w2. destruct (search_case_by_cnr_returns self cnr2 w2) as (r & w3 & H).
    exists r. rewrite H. reflexivity.
  - intros court_code date w2.
    destruct (get_cause_list_any self court_code date w2) as (w3 & H).
    eexists. rewrite H. reflexivity.
Qed.

Lemma exceptions_become_empty_results_witness :
  run (search_case_by_cnr_try init (PList [])) fresh_world
  = (Raise (Exn "TypeError" "unhashable type: 'list'"),
     logged INFO [Lit "Searching for case with CNR: "; Fmt (PList [])] fresh_world)
  ∧ fst (run (search_case_by_cnr init (PList [])) fresh_world) = Return dict_empty.
Proof.
  assert (H : run (search_case_by_cnr_try init (PList [])) fresh_world
              = (Raise (Exn "TypeError" "unhashable type: 'list'"),
                 logged INFO [Lit "Searching for case with CNR: "; Fmt (PList [])]
                   fresh_world)) by reflexivity.
  split; [exact H|].
  destruct (exceptions_become_empty_results init _ _ _ _ H) as [Hrun _].
  rewrite Hrun. reflexivity.
Defined.

(** *** The cause list *)

(** C9.  For every court code and every date argument, left out or given,
    [get_cause_list] returns the same list of five entries, with the serial
    numbers 1 to 5 in this order. *)
Theorem get_cause_list_is_fixed
    (self : ECourtsScraper) (court_code : string) (date : option string) (w : world) :
  fst (run (get_cause_list self (PStr court_code) (optional date)) w)
  = Return cause_list_literal
  ∧ length cause_list_literal = 5
  ∧ serial_numbers cause_list_literal
    = [Some (PStr "1"); Some (PStr "2"); Some (PStr "3"); Some (PStr "4");
       Some (PStr "5")].
Proof.
  split; [|split; reflexivity].
  destruct (get_cause_list_any self (PStr court_code) (optional date) w) as (w' & H).
  rewrite H. reflexivity.
Qed.

(** *** The PDF path *)

Lemma str_contains_app (c : ascii) (a b : string) :
  str_contains c (a +:+ b) = str_contains c a || str_contains c b.
Proof.
  induction a as [|c' a IH]; [reflexivity|].
  simpl. rewrite IH. apply orb_assoc.
Qed.

Lemma sub_unsafe_runs_in_class (s : string) (in_run : bool) :
  str_forall re.word_or_dash (re.sub_unsafe_runs in_run s) = true.
Proof.
  revert in_run. induction s as [|c s IH]; intros in_run; [reflexivity|].
  cbn [re.sub_unsafe_runs]. destruct (re.word_or_dash c) eqn:Hc.
  - unfold str_forall. cbn. rewrite Hc. apply IH.
  - destruct in_run; [apply IH|]. unfold str_forall. cbn. apply IH.
Qed.

Lemma in_class_no_slash (s : string) :
  str_forall re.word_or_dash s = true → str_contains SLASH s = false.
Proof.
  unfold str_forall. induction s as [|c s IH]; [reflexivity|].
  cbn [list_ascii_of_string forallb str_contains].
  intros [Hc Hs]%andb_prop. rewrite (IH Hs), orb_false_r.
  destruct (Ascii.eqb_spec SLASH c) as [<-|]; [discriminate Hc|reflexivity].
Qed.

Lemma pdf_filename_no_slash (case_id : string) :
  str_contains SLASH (pdf_filename case_id) = false.
Proof.
  unfold pdf_filename. rewrite !str_contains_app.
  rewrite (in_class_no_slash _ (sub_unsafe_runs_in_class case_id false)).
  reflexivity.
Qed.

Lemma join_pdf_filename (output_dir case_id : string) :
  output_dir ≠ "" →
  os_path.join output_dir (pdf_filename case_id)
  = output_dir +:+ (if str_endswith SLASH output_dir then "" else "/")
      +:+ pdf_filename case_id.
Proof.
  intros Hdir. unfold os_path.join.
  replace (str_startswith SLASH (pdf_filename case_id)) with false by reflexivity.
  destruct (String.eqb_spec output_dir "") as [?|_]; [contradiction|].
  cbn [orb]. destruct (str_endswith SLASH output_dir); reflexivity.
Qed.

(** C10.  When [download_case_pdf] returns a path that is not empty, the path
    is [output_dir] joined with a file name [case_<s>.pdf] where [s] has
    only characters of the class A-Za-z0-9_-; the file name has no slash, so
    the path is [output_dir], a slash unless it ends with one, and the file
    name: it stays inside [output_dir] whatever [case_id] holds. *)
Theorem download_case_pdf_stays_in_output_dir
    (self : ECourtsScraper) (case_id output_dir path : string) (w : world) :
  fst (run (download_case_pdf self case_id output_dir) w) = Return path →
  path ≠ "" →
  ∃ s,
    path = os_path.join output_dir ("case_" +:+ s +:+ ".pdf")
    ∧ str_forall re.word_or_dash s = true
    ∧ str_contains SLASH ("case_" +:+ s +:+ ".pdf") = false
    ∧ path = output_dir +:+ (if str_endswith SLASH output_dir then "" else "/")
               +:+ ("case_" +:+ s +:+ ".pdf").
Proof.
  intros Hrun Hpath. exists (re.sub_unsafe_runs false case_id).
  assert (Hjoin : path = os_path.join output_dir (pdf_filename case_id)
                  ∧ output_dir ≠ "").
  { unfold download_case_pdf, download_case_pdf_try, download_case_pdf_except,
      os_makedirs, open_w, file_write in Hrun.
    unfold_M. cbn in Hrun. destruct (String.eqb_spec output_dir "") as [->|Hdir].
    - cbn in Hrun. congruence.
    - destruct (fs_mkdirs (w_fs w) (os_path.prefixes output_dir)) as [fs1 [e1|]];
        cbn in Hrun; [congruence|].
      destruct (fs_open_w fs1 _) as [fs2|e2] in Hrun; cbn in Hrun; [|congruence].
      destruct (_ <=? _)%N in Hrun; cbn in Hrun; [|congruence].
      injection Hrun as <-. split; [reflexivity|exact Hdir]. }
  destruct Hjoin as [-> Hdir].
  split; [reflexivity|]. split; [apply sub_unsafe_runs_in_class|].
  split; [apply pdf_filename_no_slash|]. apply join_pdf_filename, Hdir.
Qed.

Lemma download_case_pdf_stays_in_output_dir_witness :
  fst (run (download_case_pdf init "12345/2023 ../x" "out/pdf") fresh_world)
  = Return "out/pdf/case_12345_2023_x.pdf"
  ∧ "out/pdf/case_12345_2023_x.pdf" ≠ ""
  ∧ ∃ s,
      "out/pdf/case_12345_2023_x.pdf" = os_path.join "out/pdf" ("case_" +:+ s +:+ ".pdf")
      ∧ str_forall re.word_or_dash s = true
      ∧ str_contains SLASH ("case_" +:+ s +:+ ".pdf") = false
      ∧ "out/pdf/case_12345_2023_x.pdf"
        = "out/pdf" +:+ (if str_endswith SLASH "out/pdf" then "" else "/")
            +:+ ("case_" +:+ s +:+ ".pdf").
Proof.
  assert (Hrun : fst (run (download_case_pdf init "12345/2023 ../x" "out/pdf")
                         fresh_world)
                 = Return "out/pdf/case_12345_2023_x.pdf") by (vm_compute; reflexivity).
  assert (Hpath : "out/pdf/case_12345_2023_x.pdf" ≠ "") by discriminate.
  split; [exact Hrun|]. split; [exact Hpath|].
  exact (download_case_pdf_stays_in_output_dir init _ _ _ fresh_world Hrun Hpath).
Defined.

(** *** Saving to files *)

Lemma fs_open_w_dirs (fs fs' : filesystem) (path : string) :
  fs_open_w fs path = Return fs' → fs_dirs fs' = fs_dirs fs.
Proof.
  unfold fs_open_w. repeat case_match; intros Hopen; inversion Hopen. reflexivity.
Qed.

Lemma keeps_dirs_ret {A} (a : A) : keeps_dirs (mret a).
Proof. intros w. reflexivity. Qed.

Lemma keeps_dirs_raise {A} (e : exn) : keeps_dirs (@raise A e).
Proof. intros w. reflexivity. Qed.

Lemma keeps_dirs_bind {A B} (m : M A) (k : A → M B) :
  keeps_dirs m → (∀ a, keeps_dirs (k a)) → keeps_dirs (m ≫= k).
Proof.
  intros Hm Hk w. specialize (Hm w). unfold run, mbind, M_bind in *.
  destruct (m w) as [[a|e] w1]; cbn [snd] in *; [|exact Hm].
  rewrite <- Hm. apply Hk.
Qed.

Lemma keeps_dirs_try {A} (body : M A) (handler : exn → M A) :
  keeps_dirs body → (∀ e, keeps_dirs (handler e)) → keeps_dirs (try_except body handler).
Proof.
  intros Hm Hk w. specialize (Hm w). unfold run, try_except in *.
  destruct (body w) as [[a|e] w1]; cbn [snd] in *; [exact Hm|].
  rewrite <- Hm. apply Hk.
Qed.

Lemma keeps_dirs_logger (lv : level) (msg : list frag) : keeps_dirs (logger lv msg).
Proof. intros w. reflexivity. Qed.

Lemma keeps_dirs_strftime (fmt : string) : keeps_dirs (strftime fmt).
Proof. intros w. reflexivity. Qed.

Lemma keeps_dirs_set_order : keeps_dirs set_order.
Proof. intros w. reflexivity. Qed.

Lemma keeps_dirs_open_w (path : string) : keeps_dirs (open_w path).
Proof.
  intros w. unfold open_w. unfold_M.
  destruct (fs_open_w (w_fs w) path) eqn:Hopen; [|reflexivity].
  apply fs_open_w_dirs in Hopen. exact Hopen.
Qed.

Lemma keeps_dirs_file_write (path text : string) : keeps_dirs (file_write path text).
Proof. intros w. unfold file_write. unfold_M. case_match; reflexivity. Qed.

(** Goes through a computation made of the steps above. *)
Ltac keeps_dirs :=
  repeat first
    [ apply keeps_dirs_open_w
    | apply keeps_dirs_file_write
    | apply keeps_dirs_logger
    | apply keeps_dirs_strftime
    | apply keeps_dirs_set_order
    | apply keeps_dirs_ret
    | apply keeps_dirs_raise
    | apply keeps_dirs_try; [|intros ?]
    | apply keeps_dirs_bind; [|intros ?]
    | case_match ].

Lemma save_results_keeps_dirs
    (self : ECourtsScraper) (data : dict) (filename : option string) :
  keeps_dirs (save_results self data filename).
Proof.
  unfold save_results, save_results_try, save_results_except. keeps_dirs.
Qed.

Lemma save_cause_list_csv_keeps_dirs
    (self : ECourtsScraper) (rows : list dict) (filename : option string) :
  keeps_dirs (save_cause_list_csv self rows filename).
Proof.
  unfold save_cause_list_csv, save_cause_list_csv_try, save_cause_list_csv_except.
  keeps_dirs.
Qed.

Lemma save_results_returns
    (self : ECourtsScraper) (data : dict) (filename : option string) (w : world) :
  ∃ name w', save_results self data filename w = (Return name, w').
Proof.
  apply (try_except_returns (save_results_try data filename) save_results_except w).
  intros e w1. eexists _, _. reflexivity.
Qed.

Lemma save_cause_list_csv_returns
    (self : ECourtsScraper) (rows : list dict) (filename : option string) (w : world) :
  ∃ name w', run (save_cause_list_csv self rows filename) w = (Return name, w').
Proof. apply try_except_returns. intros e w1. eexists _, _. reflexivity. Qed.

(** C6, as stated, fails: with no directory [output], saving to
    [output/results.json] returns normally, with the empty string, and the
    directory is not created; a file the system refuses to write gives the
    same return, and so does a disk with no room for the text. *)
Lemma failed_write_counterexample :
  fst (run (save_results init [("cause_list", PList (map PDict cause_list_literal))]
              (Some "output/results.json")) fresh_world)
  = Return ""
  ∧ fs_dirs (w_fs (snd (run (save_results init
                               [("cause_list", PList (map PDict cause_list_literal))]
                               (Some "output/results.json")) fresh_world)))
    = ∅
  ∧ fst (run (save_cause_list_csv init cause_list_literal (Some "cause_list.csv"))
             denied_world)
    = Return ""
  ∧ fst (run (save_results init [("cause_list", PList (map PDict cause_list_literal))]
                (Some "results.json")) full_world)
    = Return "".
Proof. vm_compute. repeat split. Qed.

(** C6, as the code has it.  When the writing of [save_results] or of
    [save_cause_list_csv] fails, whatever raises inside the [try] block
    (the file cannot be opened, the disk is full, a value cannot be
    written), no error is signalled to the caller: the exception is logged
    and the method returns the empty string, as a normal result; from the
    failure on, nothing but the log changes, so what the failed write left
    of the file stays.  Neither method ever raises, and neither ever
    creates a directory. *)
Theorem failed_write_returns_empty_string
    (self : ECourtsScraper) (data : dict) (rows : list dict)
    (filename : option string) (e1 e2 : exn) (w w1 w2 : world) :
  run (save_results_try data filename) w = (Raise e1, w1) →
  run (save_cause_list_csv_try rows filename) w = (Raise e2, w2) →
  (∃ w',
     run (save_results self data filename) w = (Return "", w')
     ∧ w_log w' = (w_log w1 ++ [(ERROR, [Lit "Error saving results: "; FmtExn e1])])%list
     ∧ only_logs w1 w')
  ∧ (∃ w',
       run (save_cause_list_csv self rows filename) w = (Return "", w')
       ∧ w_log w'
         = (w_log w2 ++ [(ERROR, [Lit "Error saving cause list: "; FmtExn e2])])%list
       ∧ only_logs w2 w')
  ∧ (∀ data' rows' filename' w',
       (∃ name, fst (run (save_results self data' filename') w') = Return name)
       ∧ (∃ name, fst (run (save_cause_list_csv self rows' filename') w')
                  = Return name))
  ∧ (∀ data' rows' filename' w',
       fs_dirs (w_fs (snd (run (save_results self data' filename') w')))
       = fs_dirs (w_fs w')
       ∧ fs_dirs (w_fs (snd (run (save_cause_list_csv self rows' filename') w')))
         = fs_dirs (w_fs w')).
Proof.
  intros Hjson Hcsv. split; [|split; [|split]].
  - unfold save_results, save_results_except. rewrite run_try_except, Hjson.
    run_step. eexists. split; [reflexivity|]. split; [reflexivity|].
    apply only_logs_logged, only_logs_refl.
  - unfold save_cause_list_csv, save_cause_list_csv_except.
    rewrite run_try_except, Hcsv.
    run_step. eexists. split; [reflexivity|]. split; [reflexivity|].
    apply only_logs_logged, only_logs_refl.
  - intros data' rows' filename' w'. split.
    + destruct (save_results_returns self data' filename' w') as (name & w3 & H).
      exists name. unfold run. rewrite H. reflexivity.
    + destruct (save_cause_list_csv_returns self rows' filename' w')
        as (name & w3 & H).
      exists name. rewrite H. reflexivity.
  - intros. split; [apply save_results_keeps_dirs|apply save_cause_list_csv_keeps_dirs].
Qed.

Lemma failed_write_returns_empty_string_witness :
  fst (run (save_results_try [("cause_list", PList (map PDict cause_list_literal))]
              (Some "results.json")) full_world)
  = Raise NoSpaceError
  ∧ fst (run (save_cause_list_csv_try cause_list_literal (Some "results.json"))
             full_world)
    = Raise NoSpaceError
  ∧ fst (run (save_results init [("cause_list", PList (map PDict cause_list_literal))]
                (Some "results.json")) full_world)
    = Return ""
  ∧ fst (run (save_cause_list_csv init cause_list_literal (Some "results.json"))
             full_world)
    = Return "".
Proof.
  assert (Hjson : run (save_results_try
                         [("cause_list", PList (map PDict cause_list_literal))]
                         (Some "results.json")) full_world
                  = (Raise NoSpaceError,
                     snd (run (save_results_try
                                 [("cause_list", PList (map PDict cause_list_literal))]
                                 (Some "results.json")) full_world)))
    by (vm_compute; reflexivity).
  assert (Hcsv : run (save_cause_list_csv_try cause_list_literal (Some "results.json"))
                   full_world
                 = (Raise NoSpaceError,
                    snd (run (save_cause_list_csv_try cause_list_literal
                                (Some "results.json")) full_world)))
    by (vm_compute; reflexivity).
  destruct (failed_write_returns_empty_string init _ _ _ _ _ _ _ _ Hjson Hcsv)
    as ((w1 & H1 & _) & (w2 & H2 & _) & _).
  rewrite Hjson, Hcsv, H1, H2. repeat split.
Defined.

(** *** The web views *)

Lemma search_case_reply_envelope (record : dict) :
  answers_envelope (web_interface.search_case_reply record).
Proof. destruct record as [|[k v] record]; split; reflexivity. Qed.

(** C8, as stated, fails: a search request with an unknown search type is
    answered with status 400 and a body that has an [error] field and no
    [success] field; so is, with status 500, a cause-list request whose JSON
    body is not an object. *)
Lemma envelope_counterexample :
  fst (run (web_interface.search_case
              (Return (PDict [("search_type", PStr "name"); ("cnr", PStr "X")])))
           fresh_world)
  = Return (web_interface.jsonify [("error", PStr "Invalid search type")] 400)
  ∧ dict_get [("error", PStr "Invalid search type")] "success" = None
  ∧ fst (run (web_interface.get_cause_list (Return (PList []))) fresh_world)
    = Return (web_interface.jsonify
                [("error", PStr "'list' object has no attribute 'get'")] 500).
Proof. vm_compute. repeat split. Qed.

Lemma error_body_answers (msg : string) (code : nat) :
  code = 400 ∨ code = 500 →
  answers_error (web_interface.jsonify [("error", PStr msg)] code).
Proof. intros Hcode. repeat split. exact Hcode. Qed.

(** [/search] on a JSON object. *)
Lemma search_case_on_object (d : dict) (w : world) :
  ∃ r,
    fst (run (web_interface.search_case (Return (PDict d))) w) = Return r
    ∧ if py_eq_str (dict_get_default d "search_type" PNone) "cnr" then
        if py_truthy (dict_get_default d "cnr" PNone)
        then answers_envelope r
        else r = web_interface.jsonify [("error", PStr "CNR is required")] 400
      else if py_eq_str (dict_get_default d "search_type" PNone) "details" then
        if forallb py_truthy [dict_get_default d "case_type" PNone;
                              dict_get_default d "case_number" PNone;
                              dict_get_default d "year" PNone]
        then answers_envelope r
             ∧ dict_get (web_interface.body r) "success" = Some (PBool true)
        else r = web_interface.jsonify
                   [("error", PStr "All case details are required")] 400
      else r = web_interface.jsonify [("error", PStr "Invalid search type")] 400.
Proof.
  unfold web_interface.search_case, web_interface.search_case_try,
    web_interface.get_json, web_interface.data_get, web_interface.internal_error.
  unfold_M.
  destruct (py_eq_str (dict_get_default d "search_type" PNone) "cnr").
  - destruct (py_truthy (dict_get_default d "cnr" PNone)); cbn [negb].
    + destruct (search_case_by_cnr_returns web_interface.scraper
                  (dict_get_default d "cnr" PNone) w) as (r & w' & Hr).
      unfold run in Hr. rewrite Hr. eexists. split; [reflexivity|].
      apply search_case_reply_envelope.
    + eexists. split; reflexivity.
  - destruct (py_eq_str (dict_get_default d "search_type" PNone) "details").
    + destruct (forallb py_truthy _); cbn [negb].
      * eexists. split; [reflexivity|]. repeat split.
      * eexists. split; reflexivity.
    + eexists. split; reflexivity.
Qed.

(** [/causelist] on a JSON object. *)
Lemma get_cause_list_on_object (d : dict) (w : world) :
  ∃ r,
    fst (run (web_interface.get_cause_list (Return (PDict d))) w) = Return r
    ∧ answers_envelope r
    ∧ dict_get (web_interface.body r) "success" = Some (PBool true).
Proof.
  unfold web_interface.get_cause_list, web_interface.get_cause_list_try,
    web_interface.get_json, web_interface.data_get, web_interface.internal_error.
  unfold_M.
  destruct (get_cause_list_any web_interface.scraper
              (dict_get_default d "court_code" (PStr "01"))
              (dict_get_default d "date" PNone) w) as (w1 & Hlist).
  unfold run in Hlist. rewrite Hlist. cbn [cause_list_literal].
  destruct (save_cause_list_csv_returns web_interface.scraper cause_list_literal
              None w1) as (name & w2 & Hsave).
  unfold run in Hsave. cbn [cause_list_literal] in Hsave. rewrite Hsave.
  eexists. split; [reflexivity|]. repeat split.
Qed.

(** C8, as the code has it.  Every request to [/search] and to
    [/causelist] gets an answer, which is the envelope with status 200 or
    an error body, with the one field [error] and no [success] field, and
    status 400 or 500; and the request tells which.  A request whose body
    is a JSON object is understood: [/causelist] answers it with the
    envelope, [success] true; [/search] answers it with the envelope when
    the search type is [cnr] and the CNR counts as true, or the search type
    is [details] and the three details count as true (then [success] is
    true); when a parameter is missing it answers with status 400 and the
    error that names it, and when the search type is another one, or none,
    with status 400 and [Invalid search type].  A request whose body
    cannot be read, or is not an object, makes both views raise, and is
    answered with status 500 and the text of the exception. *)
Theorem views_answer_envelope_or_error (req : web_interface.request) (w : world) :
  ∃ r1 r2,
    fst (run (web_interface.search_case req) w) = Return r1
    ∧ fst (run (web_interface.get_cause_list req) w) = Return r2
    ∧ (answers_envelope r1 ∨ answers_error r1)
    ∧ (answers_envelope r2 ∨ answers_error r2)
    ∧ match req with
      | Raise e =>
          r1 = web_interface.jsonify [("error", PStr (exn_str e))] 500
          ∧ r2 = web_interface.jsonify [("error", PStr (exn_str e))] 500
      | Return (PDict d) =>
          (answers_envelope r2
           ∧ dict_get (web_interface.body r2) "success" = Some (PBool true))
          ∧ (if py_eq_str (dict_get_default d "search_type" PNone) "cnr" then
               if py_truthy (dict_get_default d "cnr" PNone)
               then answers_envelope r1
               else r1 = web_interface.jsonify [("error", PStr "CNR is required")] 400
             else if py_eq_str (dict_get_default d "search_type" PNone) "details" then
               if forallb py_truthy [dict_get_default d "case_type" PNone;
                                     dict_get_default d "case_number" PNone;
                                     dict_get_default d "year" PNone]
               then answers_envelope r1
                    ∧ dict_get (web_interface.body r1) "success" = Some (PBool true)
               else r1 = web_interface.jsonify
                           [("error", PStr "All case details are required")] 400
             else r1 = web_interface.jsonify
                         [("error", PStr "Invalid search type")] 400)
      | Return data =>
          r1 = web_interface.jsonify
                 [("error", PStr ("'" +:+ py_type_name data
                                      +:+ "' object has no attribute 'get'"))] 500
          ∧ r2 = web_interface.jsonify
                   [("error", PStr ("'" +:+ py_type_name data
                                        +:+ "' object has no attribute 'get'"))] 500
      end.
Proof.
  destruct req as [data|e].
  - destruct data as [| | | | |d];
      try (eexists _, _; split; [reflexivity|]; split; [reflexivity|];
           split; [right; apply error_body_answers; auto|];
           split; [right; apply error_body_answers; auto|];
           split; reflexivity).
    destruct (search_case_on_object d w) as (r1 & Hr1 & Hshape).
    destruct (get_cause_list_on_object d w) as (r2 & Hr2 & Henvelope & Hsuccess).
    exists r1, r2. split; [exact Hr1|]. split; [exact Hr2|].
    split; [|split; [left; exact Henvelope|split; [split; assumption|exact Hshape]]].
    destruct (py_eq_str (dict_get_default d "search_type" PNone) "cnr").
    + destruct (py_truthy (dict_get_default d "cnr" PNone));
        [left; exact Hshape|right; subst r1; apply error_body_answers; auto].
    + destruct (py_eq_str (dict_get_default d "search_type" PNone) "details").
      * destruct (forallb py_truthy _);
          [left; apply Hshape|right; subst r1; apply error_body_answers; auto].
      * right. subst r1. apply error_body_answers. auto.
  - eexists _, _. split; [reflexivity|]. split; [reflexivity|].
    split; [right; apply error_body_answers; auto|].
    split; [right; apply error_body_answers; auto|].
    split; reflexivity.
Qed.

(** *** The CSV file of a cause list, read back *)

Lemma str_app_cons (x : ascii) (a b : string) : String x a +:+ b = String x (a +:+ b).
Proof. reflexivity. Qed.

Lemma str_app_assoc (a b c : string) : (a +:+ b) +:+ c = a +:+ (b +:+ c).
Proof.
  induction a as [|x a IH]; [reflexivity|].
  rewrite !str_app_cons, IH. reflexivity.
Qed.

Lemma str_app_nil_r (a : string) : a +:+ "" = a.
Proof.
  induction a as [|x a IH]; [reflexivity|].
  rewrite str_app_cons, IH. reflexivity.
Qed.

Section reader_facts.
Import csv.

Local Abbreviation P st f fs := {| p_state := st; p_field := f; p_fields := fs |}.

Lemma special_false (c : ascii) :
  special c = false →
  Ascii.eqb c COMMA = false ∧ Ascii.eqb c DQUOTE = false ∧ is_newline c = false
  ∧ ∀ rest, line_ends c rest = false.
Proof.
  unfold special, is_newline, line_ends. intros H.
  destruct (Ascii.eqb c COMMA), (Ascii.eqb c DQUOTE), (Ascii.eqb c CR), (Ascii.eqb c LF);
    try discriminate H. auto.
Qed.

(** One character that does not end a line. *)
Lemma reader_from_cons (p p1 : parser) (c : ascii) (rest : string) :
  parse_process_char p (Some c) = Some p1 →
  line_ends c rest = false →
  reader_from p (String c rest) = reader_from p1 rest.
Proof. intros Hstep Hends. cbn [reader_from]. rewrite Hstep. cbn. rewrite Hends. reflexivity. Qed.

(** One character inside a quoted field, where the end of a line changes nothing. *)
Lemma reader_from_cons_quoted (p p1 : parser) (c : ascii) (rest : string) :
  parse_process_char p (Some c) = Some p1 →
  p_state p1 = IN_QUOTED_FIELD →
  reader_from p (String c rest) = reader_from p1 rest.
Proof.
  intros Hstep Hstate. cbn [reader_from]. rewrite Hstep. cbn.
  destruct (line_ends c rest); [|reflexivity].
  unfold parse_process_char. rewrite Hstate. cbn. rewrite Hstate. reflexivity.
Qed.

Lemma reader_in_field (s f : string) (fs : list string) (rest : string) :
  needs_quotes s = false →
  reader_from (P IN_FIELD f fs) (s +:+ rest) = reader_from (P IN_FIELD (f +:+ s) fs) rest.
Proof.
  revert f. induction s as [|c s IH]; intros f Hs.
  - rewrite str_app_nil_r. reflexivity.
  - cbn [needs_quotes] in Hs. apply orb_false_elim in Hs as [Hc Hs].
    destruct (special_false c Hc) as (Hcomma & _ & Hnl & Hends).
    rewrite str_app_cons.
    rewrite (reader_from_cons _ (P IN_FIELD (f +:+ String c "") fs)).
    + rewrite IH by exact Hs. rewrite str_app_assoc. reflexivity.
    + unfold parse_process_char. cbn [p_state]. rewrite Hnl, Hcomma. reflexivity.
    + apply Hends.
Qed.

Lemma reader_in_quoted (s f : string) (fs : list string) (rest : string) :
  reader_from (P IN_QUOTED_FIELD f fs) (double_quotes s +:+ String DQUOTE rest)
  = reader_from (P QUOTE_IN_QUOTED_FIELD (f +:+ s) fs) rest.
Proof.
  revert f. induction s as [|c s IH]; intros f.
  - rewrite str_app_nil_r. reflexivity.
  - cbn [double_quotes]. destruct (Ascii.eqb_spec c DQUOTE) as [->|Hc].
    + rewrite !str_app_cons.
      rewrite (reader_from_cons _ (P QUOTE_IN_QUOTED_FIELD f fs)) by reflexivity.
      rewrite (reader_from_cons _ (P IN_QUOTED_FIELD (f +:+ String DQUOTE "") fs))
        by reflexivity.
      rewrite IH, str_app_assoc. reflexivity.
    + rewrite str_app_cons.
      rewrite (reader_from_cons_quoted _ (P IN_QUOTED_FIELD (f +:+ String c "") fs)).
      * rewrite IH, str_app_assoc. reflexivity.
      * unfold parse_process_char. cbn [p_state].
        destruct (Ascii.eqb_spec c DQUOTE); [contradiction|reflexivity].
      * reflexivity.
Qed.

Lemma reader_cell (st : state) (cell : string) (fs : list string) (rest : string) :
  st = START_RECORD ∨ st = START_FIELD →
  reader_from (P st "" fs) (field cell +:+ rest)
  = reader_from (P (state_after cell st) cell fs) rest.
Proof.
  intros Hst. unfold field, state_after. destruct (needs_quotes cell) eqn:Hq.
  - unfold quoted. rewrite str_app_cons, str_app_assoc, str_app_cons.
    rewrite (reader_from_cons _ (P IN_QUOTED_FIELD "" fs));
      [|destruct Hst as [->| ->]; reflexivity|reflexivity].
    rewrite reader_in_quoted. reflexivity.
  - destruct cell as [|c s]; [reflexivity|].
    cbn [needs_quotes] in Hq. apply orb_false_elim in Hq as [Hc Hs].
    destruct (special_false c Hc) as (Hcomma & Hdq & Hnl & Hends).
    rewrite str_app_cons.
    rewrite (reader_from_cons _ (P IN_FIELD (String c "") fs)).
    + rewrite reader_in_field by exact Hs. reflexivity.
    + destruct Hst as [->| ->]; unfold parse_process_char, start_field; cbn [p_state];
        rewrite Hnl, ?Hdq, ?Hcomma; reflexivity.
    + apply Hends.
Qed.

Lemma reader_comma (st : state) (f : string) (fs : list string) (rest : string) :
  st ≠ IN_QUOTED_FIELD → st ≠ EAT_CRNL →
  reader_from (P st f fs) (String COMMA rest)
  = reader_from (P START_FIELD "" (fs ++ [f])) rest.
Proof.
  intros H1 H2. apply reader_from_cons; [|reflexivity].
  destruct st; try contradiction; reflexivity.
Qed.

Lemma reader_crlf (st : state) (f : string) (fs : list string) (rest : string) :
  st = START_FIELD ∨ st = IN_FIELD ∨ st = QUOTE_IN_QUOTED_FIELD →
  reader_from (P st f fs) (CRLF +:+ rest)
  = records ← reader_from parse_reset rest; Some ((fs ++ [f])%list :: records).
Proof.
  intros Hst. unfold CRLF. rewrite !str_app_cons.
  rewrite (reader_from_cons _ (P EAT_CRNL "" (fs ++ [f])));
    [|destruct Hst as [->|[->| ->]]; reflexivity|reflexivity].
  reflexivity.
Qed.

Lemma state_after_start_field (cell : string) :
  state_after cell START_FIELD = START_FIELD
  ∨ state_after cell START_FIELD = IN_FIELD
  ∨ state_after cell START_FIELD = QUOTE_IN_QUOTED_FIELD.
Proof. unfold state_after. destruct (needs_quotes cell), cell; auto. Qed.

Lemma state_after_not_quoted (cell : string) (st : state) :
  st = START_RECORD ∨ st = START_FIELD →
  state_after cell st ≠ IN_QUOTED_FIELD ∧ state_after cell st ≠ EAT_CRNL.
Proof.
  unfold state_after. intros [->| ->]; destruct (needs_quotes cell), cell;
    split; discriminate.
Qed.

Lemma reader_cells (cells : list string) (fs : list string) (rest : string) :
  cells ≠ [] →
  reader_from (P START_FIELD "" fs) (str_join "," (map field cells) +:+ CRLF +:+ rest)
  = records ← reader_from parse_reset rest; Some ((fs ++ cells)%list :: records).
Proof.
  revert fs. induction cells as [|c cells IH]; intros fs Hne; [contradiction|].
  destruct cells as [|c' cells].
  - cbn [map str_join]. rewrite reader_cell by auto.
    apply reader_crlf, state_after_start_field.
  - change (str_join "," (map field (c :: c' :: cells)))
      with (field c +:+ "," +:+ str_join "," (map field (c' :: cells))).
    rewrite !str_app_assoc. rewrite reader_cell by auto.
    change ("," +:+ ?x) with (String COMMA x).
    destruct (state_after_not_quoted c START_FIELD) as [H1 H2]; [auto|].
    rewrite (reader_comma _ _ _ _ H1 H2).
    rewrite IH by discriminate. rewrite <- app_assoc. reflexivity.
Qed.

Lemma field_empty (cell : string) : field cell = "" → cell = "".
Proof. unfold field. destruct (needs_quotes cell); [discriminate|auto]. Qed.

Lemma reader_writerow (cells : list string) (rest : string) :
  reader_from parse_reset (writerow cells +:+ rest)
  = records ← reader_from parse_reset rest; Some (cells :: records).
Proof.
  destruct cells as [|c [|c' cells]].
  - reflexivity.
  - unfold writerow. cbn [map str_join]. destruct (field c) eqn:Hfield.
    + apply field_empty in Hfield as ->. reflexivity.
    + rewrite <- Hfield. rewrite str_app_assoc.
      unfold parse_reset. rewrite reader_cell by auto.
      apply reader_crlf. unfold state_after. unfold field in Hfield.
      destruct (needs_quotes c); [auto|]. destruct c; [discriminate|auto].
  - assert (Hrow : writerow (c :: c' :: cells)
                   = field c +:+ "," +:+ str_join "," (map field (c' :: cells)) +:+ CRLF).
    { unfold writerow.
      change (str_join "," (map field (c :: c' :: cells)))
        with (field c +:+ "," +:+ str_join "," (map field (c' :: cells))).
      destruct (field c) as [|a s]; [reflexivity|].
      rewrite !str_app_cons. cbv beta iota. rewrite str_app_assoc.
      reflexivity. }
    rewrite Hrow, !str_app_assoc. unfold parse_reset. rewrite reader_cell by auto.
    change ("," +:+ ?x) with (String COMMA x).
    destruct (state_after_not_quoted c START_RECORD) as [H1 H2]; [auto|].
    rewrite (reader_comma _ _ _ _ H1 H2).
    rewrite reader_cells by discriminate. reflexivity.
Qed.

Lemma reader_csv_text (records : list (list string)) :
  reader (csv_text records) = Some records.
Proof.
  unfold reader. induction records as [|r records IH]; [reflexivity|].
  cbn [csv_text foldr]. fold (csv_text records).
  rewrite reader_writerow, IH. reflexivity.
Qed.

End reader_facts.

Lemma dict_get_elem (d : dict) (k : string) (v : pyval) :
  dict_get d k = Some v → (k, v) ∈ d.
Proof.
  induction d as [|[k' v'] d IH]; [discriminate|]. cbn [dict_get].
  destruct (String.eqb_spec k k') as [->|_].
  - intros [= ->]. apply list_elem_of_here.
  - intros H. apply list_elem_of_further, IH, H.
Qed.

Lemma dict_get_None (d : dict) (k : string) :
  k ∉ keys d → dict_get d k = None.
Proof.
  induction d as [|[k' v'] d IH]; [reflexivity|]. cbn [dict_get keys map fst].
  intros [Hne Hnot]%not_elem_of_cons.
  destruct (String.eqb_spec k k') as [?|_]; [contradiction|apply IH, Hnot].
Qed.

Lemma dict_get_is_Some (d : dict) (k : string) :
  k ∈ keys d → ∃ v, dict_get d k = Some v.
Proof.
  induction d as [|[k' v'] d IH]; [intros H; inversion H|].
  cbn [dict_get keys map fst]. intros Hin.
  destruct (String.eqb_spec k k') as [->|Hne]; [eauto|].
  apply elem_of_cons in Hin as [?|Hin]; [contradiction|apply IH, Hin].
Qed.

Lemma dict_get_map (f : string → pyval) (ks : list string) (k : string) :
  dict_get (map (λ k', (k', f k')) ks) k = if decide (k ∈ ks) then Some (f k) else None.
Proof.
  induction ks as [|k' ks IH]; [reflexivity|]. cbn [map dict_get].
  destruct (String.eqb_spec k k') as [->|Hne].
  - rewrite decide_True by apply list_elem_of_here. reflexivity.
  - rewrite IH. destruct (decide (k ∈ ks)) as [Hin|Hnot].
    + rewrite decide_True by (apply list_elem_of_further, Hin). reflexivity.
    + rewrite decide_False; [reflexivity|].
      intros [?|?]%elem_of_cons; contradiction.
Qed.

(** What a row gives when it is written and read back: the cells of the row
    under the field names, in their order. *)
Lemma cause_list_row_same_fields (first row : dict) :
  cause_list_row first row →
  same_fields row
    (map (λ k, (k, PStr (csv.cell_text (dict_get_default row k (PStr ""))))) (keys first)).
Proof.
  intros (_ & Hstr & Hkeys) k. rewrite dict_get_map.
  destruct (decide (k ∈ keys first)) as [Hin|Hnot].
  - apply Hkeys in Hin. destruct (dict_get_is_Some _ _ Hin) as [v Hv].
    unfold dict_get_default. rewrite Hv.
    destruct (Hstr k v (dict_get_elem _ _ _ Hv)) as [s ->]. reflexivity.
  - apply dict_get_None. rewrite Hkeys. exact Hnot.
Qed.

Lemma cells_printable (vs : list pyval) :
  Forall (λ v, printable v = true) vs → csv.cells vs = Return (map csv.cell_text vs).
Proof.
  induction 1 as [|v vs Hv _ IH]; [reflexivity|].
  cbn [csv.cells map]. unfold csv.cell. rewrite Hv, IH. reflexivity.
Qed.

Lemma dict_get_default_printable (row : dict) (k : string) :
  printable (PDict row) = true → printable (dict_get_default row k (PStr "")) = true.
Proof.
  cbn [printable]. unfold dict_get_default.
  induction row as [|[k' v'] row IH]; [reflexivity|].
  cbn [forallb dict_get snd]. intros [Hv Hrow]%andb_prop.
  destruct (String.eqb k k'); [exact Hv|apply IH, Hrow].
Qed.

Lemma str_valued_printable (row : dict) : str_valued row → printable (PDict row) = true.
Proof.
  cbn [printable]. intros Hstr. apply forallb_forall. intros [k v] Hin.
  apply list_elem_of_In in Hin. destruct (Hstr k v Hin) as [s ->]. reflexivity.
Qed.

Lemma dict_to_list_known_fields (order : list string → list string)
    (fieldnames : list string) (row : dict) :
  (∀ k, k ∈ keys row → k ∈ fieldnames) → printable (PDict row) = true →
  csv.dict_to_list order fieldnames row = Return (row_cells fieldnames row).
Proof.
  intros Hkeys Hprintable. unfold csv.dict_to_list.
  replace (filter (λ k, k ∉ fieldnames) (map fst row)) with (@nil string).
  - rewrite cells_printable.
    + unfold row_cells. rewrite map_map. reflexivity.
    + apply Forall_forall. intros v (k & -> & _)%list_elem_of_fmap.
      apply dict_get_default_printable, Hprintable.
  - symmetry. fold (keys row). induction (keys row) as [|k ks IH]; [reflexivity|].
    rewrite filter_cons_False.
    + apply IH. intros k' Hk'. apply Hkeys, list_elem_of_further, Hk'.
    + intros Hnot. apply Hnot, Hkeys, list_elem_of_here.
Qed.

Lemma writerows_known_fields (order : list string → list string)
    (fieldnames : list string) (rows : list dict) :
  Forall (λ row, ∀ k, k ∈ keys row → k ∈ fieldnames) rows →
  Forall (λ row, printable (PDict row) = true) rows →
  csv.writerows order fieldnames rows
  = (csv_text (map (row_cells fieldnames) rows), None).
Proof.
  induction 1 as [|row rows Hrow _ IH]; [reflexivity|].
  intros [Hprintable Hrest]%Forall_cons.
  cbn [csv.writerows].
  rewrite (dict_to_list_known_fields _ _ _ Hrow Hprintable), (IH Hrest).
  reflexivity.
Qed.

Lemma dict_set_fresh (d : dict) (k : string) (v : pyval) :
  k ∉ keys d → csv.dict_set d k v = (d ++ [(k, v)])%list.
Proof.
  induction d as [|[k' v'] d IH]; [reflexivity|]. cbn [csv.dict_set keys map fst].
  intros [Hne Hnot]%not_elem_of_cons.
  destruct (String.eqb_spec k k') as [?|_]; [contradiction|].
  rewrite (IH Hnot). reflexivity.
Qed.

Lemma row_dict_distinct (f : string → string) (ks : list string) (d : dict) :
  NoDup ks → (∀ k, k ∈ ks → k ∉ keys d) →
  csv.row_dict d ks (map f ks) = (d ++ map (λ k, (k, PStr (f k))) ks)%list.
Proof.
  revert d. induction ks as [|k ks IH]; intros d Hnodup Hfresh.
  - cbn. rewrite app_nil_r. reflexivity.
  - cbn [map csv.row_dict].
    rewrite dict_set_fresh by apply Hfresh, list_elem_of_here.
    rewrite IH.
    + rewrite <- app_assoc. reflexivity.
    + eapply NoDup_cons_1_2, Hnodup.
    + intros k' Hk'. unfold keys. rewrite map_app. cbn [map fst].
      apply not_elem_of_app. split.
      * apply Hfresh, list_elem_of_further, Hk'.
      * intros ->%list_elem_of_singleton.
        apply NoDup_cons_1_1 in Hnodup. contradiction.
Qed.

(** What [DictReader] makes of the text [DictWriter] writes. *)
Lemma DictReader_written (fieldnames : list string) (rows : list dict) :
  NoDup fieldnames → fieldnames ≠ [] →
  csv.DictReader (csv.writerow fieldnames
                    +:+ csv_text (map (row_cells fieldnames) rows))
  = Some (map (λ row,
                 map (λ k, (k, PStr (csv.cell_text (dict_get_default row k (PStr "")))))
                     fieldnames)
              rows).
Proof.
  intros Hnodup Hne. unfold csv.DictReader.
  change (csv.writerow fieldnames +:+ csv_text (map (row_cells fieldnames) rows))
    with (csv_text (fieldnames :: map (row_cells fieldnames) rows)).
  rewrite reader_csv_text. cbn [mbind option_bind]. f_equal.
  induction rows as [|row rows IH]; [reflexivity|].
  cbn [map]. rewrite filter_cons_True.
  - cbn [map]. rewrite IH. f_equal. unfold row_cells.
    rewrite (row_dict_distinct
               (λ k, csv.cell_text (dict_get_default row k (PStr ""))) fieldnames []
               Hnodup).
    + reflexivity.
    + intros k _ Hk. inversion Hk.
  - unfold row_cells. destruct fieldnames; [contradiction|discriminate].
Qed.

Lemma same_fields_serial_numbers (rows back : list dict) :
  Forall2 same_fields rows back → serial_numbers back = serial_numbers rows.
Proof.
  induction 1 as [|row row' rows back Hrow _ IH]; [reflexivity|].
  unfold serial_numbers in *. cbn [map]. rewrite IH, (Hrow "serial_number").
  reflexivity.
Qed.

Lemma fs_open_w_files (fs fs' : filesystem) (path : string) :
  fs_open_w fs path = Return fs' → fs_files fs' = <[path := ""]> (fs_files fs).
Proof.
  unfold fs_open_w. repeat case_match; intros Hopen; inversion Hopen. reflexivity.
Qed.

Lemma str_app_length (a b : string) :
  String.length (a +:+ b) = String.length a + String.length b.
Proof.
  induction a as [|c a IH]; [reflexivity|].
  rewrite str_app_cons. cbn [String.length]. rewrite IH. reflexivity.
Qed.

Lemma csv_name_run (filename : option string) (w : world) :
  run (if not_given filename
       then timestamp ← strftime "%Y%m%d_%H%M%S";
            mret ("cause_list_" +:+ timestamp +:+ ".csv")
       else mret (default "" filename)) w
  = (Return (if not_given filename
             then "cause_list_" +:+ w_strftime w "%Y%m%d_%H%M%S" +:+ ".csv"
             else default "" filename), w).
Proof. destruct (not_given filename); reflexivity. Qed.

(** What a successful [save_cause_list_csv] has done. *)
Lemma save_cause_list_csv_success
    (self : ECourtsScraper) (first : dict) (rest : list dict)
    (filename : option string) (path : string) (w w' : world) :
  run (save_cause_list_csv self (first :: rest) filename) w = (Return path, w') →
  path ≠ "" →
  ∃ fs1 text,
    path = (if not_given filename
            then "cause_list_" +:+ w_strftime w "%Y%m%d_%H%M%S" +:+ ".csv"
            else default "" filename)
    ∧ fs_open_w (w_fs w) path = Return fs1
    ∧ csv.writerows (w_set_order w) (keys first) (first :: rest) = (text, None)
    ∧ (N.of_nat (String.length (csv.writerow (keys first) +:+ text)) ≤ fs_room fs1)%N
    ∧ fs_files (w_fs w') = <[path := csv.writerow (keys first) +:+ text]> (fs_files (w_fs w)).
Proof.
  intros Hrun Hpath.
  unfold save_cause_list_csv, save_cause_list_csv_try, save_cause_list_csv_except in Hrun.
  rewrite run_try_except, run_bind, csv_name_run in Hrun.
  set (name := if not_given filename then _ else _) in *.
  rewrite run_bind, run_open_w in Hrun.
  destruct (fs_open_w (w_fs w) name) as [fs1|e] eqn:Hopen;
    [|run_step in Hrun; congruence].
  rewrite run_bind, run_file_write in Hrun. fold (keys first) in Hrun.
  destruct (_ <=? _)%N eqn:Hheader in Hrun; [|run_step in Hrun; congruence].
  rewrite run_bind, run_set_order in Hrun.
  destruct (csv.writerows _ _ _) as [text err] eqn:Hrows.
  rewrite run_bind, run_file_write in Hrun.
  destruct (_ <=? _)%N eqn:Htext in Hrun; [|run_step in Hrun; congruence].
  destruct err as [e|]; run_step in Hrun; [congruence|].
  injection Hrun as <- <-. exists fs1, text.
  pose proof (fs_open_w_files _ _ _ Hopen) as Hfiles.
  cbn [w_fs with_fs logged fs_room fs_files w_set_order] in *.
  split; [reflexivity|]. split; [exact Hopen|]. split; [reflexivity|]. split.
  - apply N.leb_le in Hheader, Htext. rewrite str_app_length. lia.
  - rewrite lookup_insert_eq, Hfiles, lookup_insert_eq, !insert_insert_eq.
    reflexivity.
Qed.

Lemma save_cause_list_csv_written
    (self : ECourtsScraper) (first : dict) (rest : list dict)
    (filename : option string) (path : string) (w w' : world) :
  Forall (cause_list_row first) (first :: rest) →
  run (save_cause_list_csv self (first :: rest) filename) w = (Return path, w') →
  path ≠ "" →
  fs_files (w_fs w') !! path
  = Some (csv.writerow (keys first)
            +:+ csv_text (map (row_cells (keys first)) (first :: rest))).
Proof.
  intros Hrows Hrun Hpath.
  assert (Hknown : Forall (λ row, ∀ k, k ∈ keys row → k ∈ keys first) (first :: rest)).
  { eapply Forall_impl; [exact Hrows|]. intros row (_ & _ & Hkeys) k. apply Hkeys. }
  assert (Hprintable : Forall (λ row, printable (PDict row) = true) (first :: rest)).
  { eapply Forall_impl; [exact Hrows|]. intros row (_ & Hstr & _).
    apply str_valued_printable, Hstr. }
  destruct (save_cause_list_csv_success _ _ _ _ _ _ _ Hrun Hpath)
    as (fs1 & text & _ & _ & Hwritten & _ & ->).
  rewrite (writerows_known_fields _ _ _ Hknown Hprintable) in Hwritten.
  injection Hwritten as <-. apply lookup_insert_eq.
Qed.

Lemma cause_list_entry_row (a b c d e f g h a' b' c' d' e' f' g' h' : string) :
  cause_list_row (cause_list_entry a b c d e f g h)
                 (cause_list_entry a' b' c' d' e' f' g' h').
Proof.
  split; [|split].
  - apply (bool_decide_unpack _). vm_compute. exact I.
  - intros k v Hin. unfold cause_list_entry in Hin.
    repeat (apply elem_of_cons in Hin as [Hin|Hin]; [injection Hin as -> ->; eauto|]).
    inversion Hin.
  - intros k. reflexivity.
Qed.



(** ** More of the program *)

(** *** What the look-ups leave alone *)

Lemma search_case_by_cnr_value
    (self : ECourtsScraper) (cnr : pyval) (w : world) :
  ∃ w', run (search_case_by_cnr self cnr) w
        = (Return (match cnr with
                   | PStr c => default dict_empty (demo_cases self !! c)
                   | _ => dict_empty
                   end), w')
        ∧ w_fs w' = w_fs w.
Proof.
  destruct cnr as [| | |c| |]; try (eexists; split; reflexivity).
  rewrite search_case_by_cnr_str. eexists. split; reflexivity.
Qed.

(** X1.  The four look-up methods return normally, whatever their
    arguments, and change nothing but the log: [search_case_by_cnr],
    [search_case_by_details], [get_cause_list] and [get_court_list] add
    their records to the log, and leave every directory and every file
    other than the log file [ecourts_scraper.log] as it was. *)
Theorem lookups_leave_the_file_system
    (self : ECourtsScraper) (a b c : pyval) (w : world) :
  (∃ r w', run (search_case_by_cnr self a) w = (Return r, w') ∧ only_logs w w')
  ∧ (∃ r w', run (search_case_by_details self a b c) w = (Return r, w')
             ∧ only_logs w w')
  ∧ (∃ r w', run (get_cause_list self a b) w = (Return r, w') ∧ only_logs w w')
  ∧ (∃ r w', run (get_court_list self) w = (Return r, w') ∧ only_logs w w').
Proof.
  split; [|split; [|split]].
  - destruct a as [| | |s| |].
    4:{ rewrite search_case_by_cnr_str. eexists _, _. split; [reflexivity|].
        apply only_logs_logged, only_logs_refl. }
    all: eexists _, _; (split; [reflexivity|]);
      repeat apply only_logs_logged; apply only_logs_refl.
  - eexists _, _. split; [reflexivity|]. apply only_logs_logged, only_logs_refl.
  - unfold get_cause_list, get_cause_list_try. run_step.
    destruct (py_truthy b); cbn [negb]; run_step;
      (eexists _, _; split; [reflexivity|]);
      apply only_logs_logged, only_logs_refl.
  - eexists _, _. split; [reflexivity|]. apply only_logs_refl.
Qed.

(** *** The PDF file *)

Lemma fs_isdir_mono (fs fs' : filesystem) (d : string) :
  fs_dirs fs ⊆ fs_dirs fs' → fs_isdir fs d = true → fs_isdir fs' d = true.
Proof.
  unfold fs_isdir. intros Hsub [H|H]%orb_prop.
  - rewrite H. reflexivity.
  - apply bool_decide_eq_true in H. apply orb_true_intro. right.
    apply bool_decide_eq_true. apply Hsub, H.
Qed.

Lemma fs_mkdir_spec (last : bool) (fs fs' : filesystem) (d : string) :
  fs_mkdir last fs d = Return fs' →
  fs_files fs' = fs_files fs ∧ fs_denied fs' = fs_denied fs
  ∧ fs_room fs' = fs_room fs ∧ fs_dirs fs ⊆ fs_dirs fs'
  ∧ (last = true → fs_isdir fs' d = true).
Proof.
  unfold fs_mkdir. destruct (fs_isdir fs d) eqn:Hdir.
  - intros [= <-]. repeat split; [set_solver|intros _; exact Hdir].
  - destruct (fs_isfile fs _).
    { destruct last; [discriminate|]. intros [= <-].
      repeat split; [set_solver|discriminate]. }
    repeat case_match; intros Hmk; inversion Hmk; subst; cbn.
    repeat split; [set_solver|]. intros _.
    unfold fs_isdir. cbn. apply orb_true_intro. right.
    apply bool_decide_eq_true. set_solver.
Qed.

Lemma fs_mkdirs_spec (ds : list string) (fs fs' : filesystem) (err : option exn) :
  fs_mkdirs fs ds = (fs', err) →
  fs_files fs' = fs_files fs ∧ fs_denied fs' = fs_denied fs
  ∧ fs_room fs' = fs_room fs ∧ fs_dirs fs ⊆ fs_dirs fs'.
Proof.
  revert fs. induction ds as [|d ds IH]; intros fs.
  - intros [= <- <-]. repeat split. set_solver.
  - cbn [fs_mkdirs]. destruct (fs_mkdir _ fs d) as [fs1|e] eqn:Hmk.
    + intros Hrest. apply fs_mkdir_spec in Hmk as (Hf1 & Hd1 & Hr1 & Hs1 & _).
      apply IH in Hrest as (Hf2 & Hd2 & Hr2 & Hs2).
      repeat split; [congruence|congruence|congruence|etrans; eassumption].
    + intros [= <- <-]. repeat split. set_solver.
Qed.

(** The last of the directories is there when no error came. *)
Lemma fs_mkdirs_last (ds : list string) (p : string) (fs fs' : filesystem) :
  fs_mkdirs fs (ds ++ [p]) = (fs', None) → fs_isdir fs' p = true.
Proof.
  revert fs. induction ds as [|d ds IH]; intros fs.
  - cbn [app fs_mkdirs]. destruct (fs_mkdir true fs p) as [fs1|e] eqn:Hmk;
      [|discriminate].
    intros [= <-]. apply fs_mkdir_spec in Hmk as (_ & _ & _ & _ & Hdir).
    apply Hdir. reflexivity.
  - cbn [app fs_mkdirs]. destruct (fs_mkdir _ fs d) as [fs1|e]; [|discriminate].
    apply IH.
Qed.

Lemma run_os_makedirs (name : string) (w : world) :
  run (os_makedirs name) w
  = if String.eqb name "" then (Raise (FileNotFoundError name), w)
    else (match (fs_mkdirs (w_fs w) (os_path.prefixes name)).2 with
          | Some e => Raise e
          | None => Return tt
          end,
          with_fs (fs_mkdirs (w_fs w) (os_path.prefixes name)).1 w).
Proof.
  unfold os_makedirs. unfold_M. destruct (String.eqb name ""); [reflexivity|].
  destruct (fs_mkdirs _ _) as [fs1 [e|]]; reflexivity.
Qed.

Lemma os_makedirs_returns (name : string) (w w1 : world) :
  run (os_makedirs name) w = (Return tt, w1) →
  name ≠ ""
  ∧ fs_isdir (w_fs w1) name = true
  ∧ fs_files (w_fs w1) = fs_files (w_fs w)
  ∧ fs_room (w_fs w1) = fs_room (w_fs w)
  ∧ fs_dirs (w_fs w) ⊆ fs_dirs (w_fs w1)
  ∧ w_log w1 = w_log w.
Proof.
  rewrite run_os_makedirs. destruct (String.eqb_spec name "") as [->|Hname];
    [discriminate|].
  destruct (fs_mkdirs _ _) as [fs1 [e|]] eqn:Hmk; cbn [fst snd]; [discriminate|].
  intros [= <-]. cbn [w_fs with_fs w_log].
  pose proof (fs_mkdirs_spec _ _ _ _ Hmk) as (Hfiles & _ & Hroom & Hsub).
  repeat split; try assumption.
  unfold os_path.prefixes in Hmk. apply fs_mkdirs_last in Hmk. exact Hmk.
Qed.

(** What a successful [download_case_pdf] has done. *)
Lemma download_case_pdf_success
    (self : ECourtsScraper) (case_id output_dir path : string) (w w' : world) :
  run (download_case_pdf self case_id output_dir) w = (Return path, w') →
  path ≠ "" →
  ∃ w1 fs2,
    run (os_makedirs output_dir) w = (Return tt, w1)
    ∧ path = os_path.join output_dir (pdf_filename case_id)
    ∧ fs_open_w (w_fs w1) path = Return fs2
    ∧ fs_files (w_fs w')
      = <[path := "This is a placeholder PDF content"]> (fs_files (w_fs w1))
    ∧ fs_dirs (w_fs w') = fs_dirs (w_fs w1).
Proof.
  intros Hrun Hpath.
  unfold download_case_pdf, download_case_pdf_try, download_case_pdf_except in Hrun.
  rewrite run_try_except, run_bind in Hrun.
  destruct (run (os_makedirs output_dir) w) as [[[]|e] w1] eqn:Hmk;
    [|run_step in Hrun; congruence].
  rewrite run_bind, run_open_w in Hrun.
  destruct (fs_open_w (w_fs w1) _) as [fs2|e] eqn:Hopen;
    [|run_step in Hrun; congruence].
  rewrite run_bind, run_file_write in Hrun.
  destruct (_ <=? _)%N in Hrun; run_step in Hrun; [|congruence].
  injection Hrun as <- <-. exists w1, fs2.
  pose proof (fs_open_w_files _ _ _ Hopen) as Hfiles.
  pose proof (fs_open_w_dirs _ _ _ Hopen) as Hdirs.
  cbn [w_fs with_fs logged fs_files fs_dirs].
  repeat split; try assumption.
  rewrite Hfiles, lookup_insert_eq, insert_insert_eq. reflexivity.
Qed.

(** X2.  When [download_case_pdf] returns a path, the file under that path
    holds the placeholder text, in place of what it held before,
    [output_dir] is a directory, and the directories that existed are
    still there. *)
Theorem download_case_pdf_writes_placeholder
    (self : ECourtsScraper) (case_id output_dir path : string) (w w' : world) :
  run (download_case_pdf self case_id output_dir) w = (Return path, w') →
  path ≠ "" →
  fs_files (w_fs w') !! path = Some "This is a placeholder PDF content"
  ∧ fs_isdir (w_fs w') output_dir = true
  ∧ fs_dirs (w_fs w) ⊆ fs_dirs (w_fs w').
Proof.
  intros Hrun Hpath.
  destruct (download_case_pdf_success _ _ _ _ _ _ Hrun Hpath)
    as (w1 & fs2 & Hmk & _ & _ & Hfiles & Hdirs).
  apply os_makedirs_returns in Hmk as (_ & Hdir & _ & _ & Hsub & _).
  split; [rewrite Hfiles; apply lookup_insert_eq|]. split.
  - eapply fs_isdir_mono; [|exact Hdir]. rewrite Hdirs. reflexivity.
  - rewrite Hdirs. exact Hsub.
Qed.

Lemma download_case_pdf_writes_placeholder_witness :
  fs_files (w_fs (snd (run (download_case_pdf init "12345/2023" "out/pdf") fresh_world)))
    !! "out/pdf/case_12345_2023.pdf"
  = Some "This is a placeholder PDF content".
Proof.
  assert (Hrun : run (download_case_pdf init "12345/2023" "out/pdf") fresh_world
                 = (Return "out/pdf/case_12345_2023.pdf",
                    snd (run (download_case_pdf init "12345/2023" "out/pdf")
                           fresh_world))) by (vm_compute; reflexivity).
  assert (Hpath : "out/pdf/case_12345_2023.pdf" ≠ "") by discriminate.
  exact (proj1 (download_case_pdf_writes_placeholder _ _ _ _ _ _ Hrun Hpath)).
Defined.

Lemma substring_prefix (n : nat) (s : string) :
  n < String.length s →
  ∃ rest, s = String.substring 0 n s +:+ rest ∧ rest ≠ "".
Proof.
  revert s. induction n as [|n IH]; intros s Hn.
  - exists s. split; [destruct s; reflexivity|].
    intros ->. cbn in Hn. lia.
  - destruct s as [|c s]; cbn [String.length] in Hn; [lia|].
    destruct (IH s) as (rest & Hrest & Hne); [lia|].
    exists rest. split; [|exact Hne].
    cbn [String.substring]. rewrite str_app_cons, <- Hrest. reflexivity.
Qed.

(** X3.  A write that fails leaves an incomplete file behind.  When the
    directory can be made and the file opened, and the disk then has no
    room for the 33 characters of the placeholder text,
    [download_case_pdf] returns the empty string, and the file is there,
    holding a part of the text only. *)
Theorem download_case_pdf_no_room
    (self : ECourtsScraper) (case_id output_dir : string) (fs2 : filesystem)
    (w w1 : world) :
  run (os_makedirs output_dir) w = (Return tt, w1) →
  fs_open_w (w_fs w1) (os_path.join output_dir (pdf_filename case_id)) = Return fs2 →
  (fs_room fs2 < 33)%N →
  fst (run (download_case_pdf self case_id output_dir) w) = Return ""
  ∧ ∃ text rest,
      fs_files (w_fs (snd (run (download_case_pdf self case_id output_dir) w)))
        !! os_path.join output_dir (pdf_filename case_id)
      = Some text
      ∧ "This is a placeholder PDF content" = text +:+ rest
      ∧ rest ≠ "".
Proof.
  intros Hmk Hopen Hroom.
  unfold download_case_pdf, download_case_pdf_try, download_case_pdf_except.
  rewrite run_try_except, run_bind, Hmk, run_bind, run_open_w.
  fold (pdf_filename case_id). rewrite Hopen.
  rewrite run_bind, run_file_write. cbn [w_fs with_fs].
  change (String.length "This is a placeholder PDF content") with 33.
  destruct (N.leb_spec (N.of_nat 33) (fs_room fs2)) as [Hfits|_]; [lia|].
  run_step. cbn [fst snd w_fs with_fs logged fs_files].
  split; [reflexivity|].
  destruct (substring_prefix (N.to_nat (fs_room fs2))
              "This is a placeholder PDF content") as (rest & Hrest & Hne).
  { change (String.length "This is a placeholder PDF content") with 33. lia. }
  eexists _, rest. split; [apply lookup_insert_eq|]. split; [|exact Hne].
  rewrite (fs_open_w_files _ _ _ Hopen), lookup_insert_eq. exact Hrest.
Qed.

Lemma download_case_pdf_no_room_witness :
  fst (run (download_case_pdf init "12345/2023" "out") full_world) = Return ""
  ∧ ∃ text rest,
      fs_files (w_fs (snd (run (download_case_pdf init "12345/2023" "out") full_world)))
        !! os_path.join "out" (pdf_filename "12345/2023")
      = Some text
      ∧ "This is a placeholder PDF content" = text +:+ rest
      ∧ rest ≠ "".
Proof.
  assert (Hmk : run (os_makedirs "out") full_world
                = (Return tt, snd (run (os_makedirs "out") full_world)))
    by (vm_compute; reflexivity).
  assert (Hopen : fs_open_w (w_fs (snd (run (os_makedirs "out") full_world)))
                    (os_path.join "out" (pdf_filename "12345/2023"))
                  = Return {| fs_dirs := {["out"]};
                              fs_files := <["out/case_12345_2023.pdf" := ""]> ∅;
                              fs_denied := ∅;
                              fs_room := 20 |})
    by (vm_compute; reflexivity).
  assert (Hroom : (20 < 33)%N) by lia.
  exact (download_case_pdf_no_room init "12345/2023" "out" _ full_world _
           Hmk Hopen Hroom).
Defined.

(** *** The file name of a case *)

Lemma sub_unsafe_runs_id (s : string) (in_run : bool) :
  str_forall re.word_or_dash s = true → re.sub_unsafe_runs in_run s = s.
Proof.
  unfold str_forall. revert in_run. induction s as [|c s IH]; intros in_run;
    [reflexivity|].
  cbn [list_ascii_of_string forallb re.sub_unsafe_runs].
  intros [Hc Hs]%andb_prop. rewrite Hc, (IH false Hs). reflexivity.
Qed.

(** X4.  A case id made of characters of the class A-Za-z0-9_- only is kept
    as it is in the file name; and cleaning any case id twice changes
    nothing more: the file name of a cleaned id is the file name of the
    id. *)
Theorem pdf_filename_keeps_clean_ids (case_id : string) :
  str_forall re.word_or_dash case_id = true →
  pdf_filename case_id = "case_" +:+ case_id +:+ ".pdf"
  ∧ ∀ any_id, pdf_filename (re.sub_unsafe_runs false any_id) = pdf_filename any_id.
Proof.
  unfold pdf_filename. intros Hclean. split.
  - rewrite (sub_unsafe_runs_id _ _ Hclean). reflexivity.
  - intros any_id.
    rewrite (sub_unsafe_runs_id _ false (sub_unsafe_runs_in_class any_id false)).
    reflexivity.
Qed.

Lemma pdf_filename_keeps_clean_ids_witness :
  str_forall re.word_or_dash "DLCT01-123456-2023" = true
  ∧ pdf_filename "DLCT01-123456-2023" = "case_DLCT01-123456-2023.pdf".
Proof.
  assert (H : str_forall re.word_or_dash "DLCT01-123456-2023" = true) by reflexivity.
  split; [exact H|].
  exact (proj1 (pdf_filename_keeps_clean_ids "DLCT01-123456-2023" H)).
Defined.

Lemma sub_unsafe_runs_app (a b : string) (in_run : bool) :
  ∃ a' in_run',
    ∀ rest, re.sub_unsafe_runs in_run (a +:+ rest)
            = a' +:+ re.sub_unsafe_runs in_run' rest.
Proof.
  revert in_run. induction a as [|c a IH]; intros in_run.
  - exists "", in_run. reflexivity.
  - destruct (re.word_or_dash c) eqn:Hc.
    + destruct (IH false) as (a' & r & H). exists (String c a'), r. intros rest.
      rewrite str_app_cons. cbn [re.sub_unsafe_runs]. rewrite Hc, H. reflexivity.
    + destruct (IH true) as (a' & r & H). destruct in_run.
      * exists a', r. intros rest.
        rewrite str_app_cons. cbn [re.sub_unsafe_runs]. rewrite Hc, H. reflexivity.
      * exists (String "_" a'), r. intros rest.
        rewrite str_app_cons. cbn [re.sub_unsafe_runs]. rewrite Hc, H. reflexivity.
Qed.

(** X5.  The file name does not tell apart two case ids that differ in one
    character outside the class A-Za-z0-9_-: both are saved under the same
    path, and [download_case_pdf] does the same on both. *)
Theorem download_case_pdf_collides
    (self : ECourtsScraper) (a b output_dir : string) (c1 c2 : ascii) (w : world) :
  re.word_or_dash c1 = false → re.word_or_dash c2 = false →
  pdf_filename (a +:+ String c1 b) = pdf_filename (a +:+ String c2 b)
  ∧ run (download_case_pdf self (a +:+ String c1 b) output_dir) w
    = run (download_case_pdf self (a +:+ String c2 b) output_dir) w.
Proof.
  intros H1 H2.
  assert (Hsub : re.sub_unsafe_runs false (a +:+ String c1 b)
                 = re.sub_unsafe_runs false (a +:+ String c2 b)).
  { destruct (sub_unsafe_runs_app a b false) as (a' & r & H).
    rewrite !H. cbn [re.sub_unsafe_runs]. rewrite H1, H2. reflexivity. }
  split.
  - unfold pdf_filename. rewrite Hsub. reflexivity.
  - unfold download_case_pdf, download_case_pdf_try. rewrite Hsub. reflexivity.
Qed.

Lemma download_case_pdf_collides_witness :
  pdf_filename "12345/2023" = pdf_filename "12345 2023"
  ∧ run (download_case_pdf init "12345/2023" "out") fresh_world
    = run (download_case_pdf init "12345 2023" "out") fresh_world.
Proof.
  assert (H1 : re.word_or_dash "/" = false) by reflexivity.
  assert (H2 : re.word_or_dash " " = false) by reflexivity.
  exact (download_case_pdf_collides init "12345" "2023" "out" "/" " " fresh_world H1 H2).
Defined.

(** *** Saving, when it works and when it does not *)

Lemma json_name_run (filename : option string) (w : world) :
  run (if not_given filename
       then timestamp ← strftime "%Y%m%d_%H%M%S";
            mret ("ecourts_results_" +:+ timestamp +:+ ".json")
       else mret (default "" filename)) w
  = (Return (if not_given filename
             then "ecourts_results_" +:+ w_strftime w "%Y%m%d_%H%M%S" +:+ ".json"
             else default "" filename), w).
Proof. destruct (not_given filename); reflexivity. Qed.

(** [save_results], once the file is open and the disk has room. *)
Lemma save_results_run
    (self : ECourtsScraper) (data : dict) (filename : option string)
    (name : string) (fs1 : filesystem) (w : world) :
  name = (if not_given filename
          then "ecourts_results_" +:+ w_strftime w "%Y%m%d_%H%M%S" +:+ ".json"
          else default "" filename) →
  fs_open_w (w_fs w) name = Return fs1 →
  (N.of_nat (String.length (json.dump_text (PDict data))) ≤ fs_room fs1)%N →
  ∃ w',
    run (save_results self data filename) w
    = (Return (match json.dump_error (PDict data) with
               | None => name
               | Some _ => ""
               end), w')
    ∧ fs_files (w_fs w') = <[name := json.dump_text (PDict data)]> (fs_files (w_fs w))
    ∧ fs_dirs (w_fs w') = fs_dirs (w_fs w).
Proof.
  intros Hname Hopen Hroom.
  pose proof (fs_open_w_files _ _ _ Hopen) as Hfiles.
  pose proof (fs_open_w_dirs _ _ _ Hopen) as Hdirs.
  unfold save_results, save_results_try, save_results_except.
  rewrite run_try_except, run_bind, json_name_run, <- Hname, run_bind, run_open_w,
    Hopen.
  unfold json.dump_text, json.dump_error in *.
  destruct (json.iterencode 0 (PDict data)) as [text err]. cbn [fst snd] in *.
  rewrite run_bind, run_file_write. cbn [w_fs with_fs].
  apply N.leb_le in Hroom. rewrite Hroom.
  destruct err as [e|]; run_step; eexists; (split; [reflexivity|]);
    cbn [w_fs with_fs logged fs_files fs_dirs];
    (split; [|exact Hdirs]);
    rewrite Hfiles, lookup_insert_eq, insert_insert_eq; reflexivity.
Qed.



(** X7.  Given an empty cause list, [save_cause_list_csv] writes no file:
    it logs a warning and returns the empty string, whatever the file
    name; nothing but the log changes. *)
Theorem save_cause_list_csv_empty_list
    (self : ECourtsScraper) (filename : option string) (w : world) :
  ∃ w',
    run (save_cause_list_csv self [] filename) w = (Return "", w')
    ∧ w_log w' = (w_log w ++ [(WARNING, [Lit "No cause list data to save"])])%list
    ∧ only_logs w w'.
Proof.
  unfold save_cause_list_csv, save_cause_list_csv_try.
  rewrite run_try_except, run_bind, csv_name_run. run_step.
  eexists. split; [reflexivity|]. split; [reflexivity|].
  apply only_logs_logged, only_logs_refl.
Qed.

Lemma flat_row_printable (row : dict) : flat_row row → printable (PDict row) = true.
Proof.
  cbn [printable]. intros Hflat. apply forallb_forall. intros [k v] Hin.
  apply list_elem_of_In in Hin. apply Hflat in Hin. cbn [snd].
  destruct v; try discriminate Hin; exact Hin.
Qed.

Lemma writerows_extra_field (order : list string → list string)
    (fieldnames : list string) (good : list dict) (bad : dict) (rest : list dict) :
  Forall (λ row, ∀ k, k ∈ keys row → k ∈ fieldnames) good →
  Forall (λ row, printable (PDict row) = true) good →
  (∃ k, k ∈ keys bad ∧ k ∉ fieldnames) →
  ∃ e, csv.writerows order fieldnames (good ++ bad :: rest)
       = (csv_text (map (row_cells fieldnames) good), Some e).
Proof.
  intros Hgood Hprintable (k & Hin & Hnot).
  induction Hgood as [|row good Hrow _ IH].
  - cbn [app csv.writerows]. unfold csv.dict_to_list. fold (keys bad).
    destruct (filter (λ k, k ∉ fieldnames) (keys bad)) as [|k' ks] eqn:Hfilter.
    + exfalso. assert (Hk : k ∈ filter (λ k, k ∉ fieldnames) (keys bad))
        by (apply list_elem_of_filter; split; assumption).
      rewrite Hfilter in Hk. inversion Hk.
    + eexists. reflexivity.
  - apply Forall_cons in Hprintable as [Hp Hprintable].
    destruct (IH Hprintable) as [e IH']. exists e.
    cbn [app csv.writerows]. rewrite (dict_to_list_known_fields _ _ _ Hrow Hp), IH'.
    reflexivity.
Qed.

(** [save_cause_list_csv], once the file is open and the disk has room. *)
Lemma save_cause_list_csv_run
    (self : ECourtsScraper) (first : dict) (rest : list dict)
    (filename : option string) (name : string) (fs1 : filesystem)
    (text : string) (err : option exn) (w : world) :
  name = (if not_given filename
          then "cause_list_" +:+ w_strftime w "%Y%m%d_%H%M%S" +:+ ".csv"
          else default "" filename) →
  fs_open_w (w_fs w) name = Return fs1 →
  csv.writerows (w_set_order w) (keys first) (first :: rest) = (text, err) →
  (N.of_nat (String.length (csv.writerow (keys first) +:+ text)) ≤ fs_room fs1)%N →
  ∃ w',
    run (save_cause_list_csv self (first :: rest) filename) w
    = (Return (match err with None => name | Some _ => "" end), w')
    ∧ fs_files (w_fs w') = <[name := csv.writerow (keys first) +:+ text]> (fs_files (w_fs w))
    ∧ fs_dirs (w_fs w') = fs_dirs (w_fs w).
Proof.
  intros Hname Hopen Hrows Hroom.
  pose proof (fs_open_w_files _ _ _ Hopen) as Hfiles.
  pose proof (fs_open_w_dirs _ _ _ Hopen) as Hdirs.
  rewrite str_app_length, Nat2N.inj_add in Hroom.
  unfold save_cause_list_csv, save_cause_list_csv_try, save_cause_list_csv_except.
  rewrite run_try_except, run_bind, csv_name_run, <- Hname, run_bind, run_open_w,
    Hopen.
  rewrite run_bind, run_file_write. fold (keys first). cbn [w_fs with_fs].
  destruct (N.leb_spec (N.of_nat (String.length (csv.writerow (keys first))))
              (fs_room fs1)) as [_|Hlt]; [|lia].
  rewrite run_bind, run_set_order. cbn [w_set_order with_fs]. rewrite Hrows.
  rewrite run_bind, run_file_write. cbn [w_fs with_fs fs_room].
  destruct (N.leb_spec (N.of_nat (String.length text))
              (fs_room fs1 - N.of_nat (String.length (csv.writerow (keys first)))))
    as [_|Hlt]; [|lia].
  destruct err as [e|]; run_step; eexists; (split; [reflexivity|]);
    cbn [w_fs with_fs logged fs_files fs_dirs];
    (split; [|exact Hdirs]);
    rewrite lookup_insert_eq, Hfiles, lookup_insert_eq, !insert_insert_eq;
    reflexivity.
Qed.





(** *** The views, on top of the scraper *)

Lemma demo_case_not_empty (cnr : string) (record : dict) :
  demo_cases init !! cnr = Some record → py_truthy (PDict record) = true.
Proof. intros H. each_demo_case H; reflexivity. Qed.

(** X10.  A search by CNR through [/search]: a CNR of the fixture dataset is
    answered with [success] true and the record as [data]; any other value
    that counts as true, a string or not, with [success] false and the
    message that the case was not found; and a CNR that is missing, empty
    or otherwise false, with status 400. *)
Theorem search_view_by_cnr (d : dict) (w : world) :
  dict_get d "search_type" = Some (PStr "cnr") →
  fst (run (web_interface.search_case (Return (PDict d))) w)
  = Return
      (if py_truthy (dict_get_default d "cnr" PNone) then
         match dict_get_default d "cnr" PNone with
         | PStr c =>
             match demo_cases init !! c with
             | Some record =>
                 web_interface.jsonify
                   [("success", PBool true); ("data", PDict record)] 200
             | None =>
                 web_interface.jsonify
                   [("success", PBool false); ("message", PStr "Case not found")] 200
             end
         | _ =>
             web_interface.jsonify
               [("success", PBool false); ("message", PStr "Case not found")] 200
         end
       else web_interface.jsonify [("error", PStr "CNR is required")] 400).
Proof.
  intros Htype.
  unfold web_interface.search_case, web_interface.search_case_try,
    web_interface.get_json, web_interface.data_get, web_interface.internal_error.
  unfold_M.
  assert (Hst : dict_get_default d "search_type" PNone = PStr "cnr")
    by (unfold dict_get_default; rewrite Htype; reflexivity).
  rewrite Hst. change (py_eq_str (PStr "cnr") "cnr") with true. cbv iota.
  destruct (py_truthy (dict_get_default d "cnr" PNone)) eqn:Htruthy; cbn [negb];
    [|reflexivity].
  destruct (search_case_by_cnr_value web_interface.scraper
              (dict_get_default d "cnr" PNone) w) as (w1 & Hrun & _).
  unfold run in Hrun. rewrite Hrun. cbn [fst].
  destruct (dict_get_default d "cnr" PNone) as [| | |c| |]; try reflexivity.
  unfold web_interface.scraper.
  destruct (demo_cases init !! c) as [record|] eqn:Hrecord; [|reflexivity].
  pose proof (demo_case_not_empty _ _ Hrecord) as Hfull.
  destruct record; [discriminate Hfull|reflexivity].
Qed.

Lemma search_view_by_cnr_witness :
  fst (run (web_interface.search_case
              (Return (PDict [("search_type", PStr "cnr"); ("cnr", PInt 7)])))
           fresh_world)
  = Return (web_interface.jsonify
              [("success", PBool false); ("message", PStr "Case not found")] 200).
Proof.
  assert (H : dict_get [("search_type", PStr "cnr"); ("cnr", PInt 7)] "search_type"
              = Some (PStr "cnr")) by reflexivity.
  exact (search_view_by_cnr _ fresh_world H).
Defined.

(** X11.  A search by details through [/search] never answers that the case
    was not found: when the three details count as true, the answer has
    [success] true and a record that gives back the three values; when one
    of them is missing or false, the answer is the error of status 400. *)
Theorem search_view_by_details (d : dict) (w : world) :
  dict_get d "search_type" = Some (PStr "details") →
  ∃ r,
    fst (run (web_interface.search_case (Return (PDict d))) w) = Return r
    ∧ if forallb py_truthy [dict_get_default d "case_type" PNone;
                            dict_get_default d "case_number" PNone;
                            dict_get_default d "year" PNone]
      then ∃ record,
          r = web_interface.jsonify
                [("success", PBool true); ("data", PDict record)] 200
          ∧ dict_get record "case_type" = Some (dict_get_default d "case_type" PNone)
          ∧ dict_get record "case_number"
            = Some (dict_get_default d "case_number" PNone)
          ∧ dict_get record "year" = Some (dict_get_default d "year" PNone)
      else r = web_interface.jsonify
                 [("error", PStr "All case details are required")] 400.
Proof.
  intros Htype.
  unfold web_interface.search_case, web_interface.search_case_try,
    web_interface.get_json, web_interface.data_get, web_interface.internal_error.
  unfold_M.
  assert (Hst : dict_get_default d "search_type" PNone = PStr "details")
    by (unfold dict_get_default; rewrite Htype; reflexivity).
  rewrite Hst. change (py_eq_str (PStr "details") "cnr") with false.
  change (py_eq_str (PStr "details") "details") with true. cbv iota.
  destruct (forallb py_truthy _); cbn [negb].
  - eexists. split; [reflexivity|]. eexists. split; [reflexivity|]. repeat split.
  - eexists. split; reflexivity.
Qed.

Lemma search_view_by_details_witness :
  ∃ r,
    fst (run (web_interface.search_case
                (Return (PDict [("search_type", PStr "details");
                                ("case_type", PStr "Civil");
                                ("case_number", PStr "12345");
                                ("year", PInt 0)])))
             fresh_world) = Return r
    ∧ r = web_interface.jsonify
            [("error", PStr "All case details are required")] 400.
Proof.
  assert (H : dict_get [("search_type", PStr "details"); ("case_type", PStr "Civil");
                        ("case_number", PStr "12345"); ("year", PInt 0)] "search_type"
              = Some (PStr "details")) by reflexivity.
  exact (search_view_by_details _ fresh_world H).
Defined.

Lemma save_cause_list_csv_refused
    (self : ECourtsScraper) (rows : list dict)
    (filename : option string) (name : string) (e : exn) (w : world) :
  rows ≠ [] →
  name = (if not_given filename
          then "cause_list_" +:+ w_strftime w "%Y%m%d_%H%M%S" +:+ ".csv"
          else default "" filename) →
  fs_open_w (w_fs w) name = Raise e →
  run (save_cause_list_csv self rows filename) w
  = (Return "", logged ERROR [Lit "Error saving cause list: "; FmtExn e] w).
Proof.
  intros Hrows Hname Hopen. destruct rows as [|first rest]; [contradiction|].
  unfold save_cause_list_csv, save_cause_list_csv_try, save_cause_list_csv_except.
  rewrite run_try_except, run_bind, csv_name_run, <- Hname, run_bind, run_open_w,
    Hopen.
  run_step. reflexivity.
Qed.

Lemma cause_list_literal_known :
  Forall (λ row, ∀ k, k ∈ keys row
                   → k ∈ keys (cause_list_entry "1" "12345/2023" "Sample Case 1"
                                 "John Doe" "Jane Smith" "Advocate ABC" "Room 1"
                                 "10:00 AM"))
    cause_list_literal.
Proof.
  unfold cause_list_literal.
  repeat (apply Forall_cons; split; [intros k Hk; exact Hk|]). constructor.
Qed.

Lemma cause_list_literal_printable :
  Forall (λ row, printable (PDict row) = true) cause_list_literal.
Proof.
  unfold cause_list_literal.
  repeat (apply Forall_cons; split; [reflexivity|]). constructor.
Qed.

(** X12.  [/causelist] answers every request whose body is a JSON object
    with [success] true and the five entries, whatever the object holds.
    The entries are saved on the way under a name made of the clock, and
    [filename] is that name or is empty: it is empty when the file cannot
    be opened, and the answer is still a success; it is the name when the
    file can be opened and the disk has room for the 509 characters of the
    text. *)
Theorem cause_list_view_answers_success (d : dict) (w : world) :
  ∃ filename,
    fst (run (web_interface.get_cause_list (Return (PDict d))) w)
    = Return
        (web_interface.jsonify
           [("success", PBool true);
            ("data", PList (map PDict cause_list_literal));
            ("filename", PStr filename)] 200)
    ∧ (filename = "cause_list_" +:+ w_strftime w "%Y%m%d_%H%M%S" +:+ ".csv"
       ∨ filename = "")
    ∧ (∀ e, fs_open_w (w_fs w)
              ("cause_list_" +:+ w_strftime w "%Y%m%d_%H%M%S" +:+ ".csv")
            = Raise e →
            filename = "")
    ∧ (∀ fs1, fs_open_w (w_fs w)
                ("cause_list_" +:+ w_strftime w "%Y%m%d_%H%M%S" +:+ ".csv")
              = Return fs1 →
              (509 ≤ fs_room fs1)%N →
              filename = "cause_list_" +:+ w_strftime w "%Y%m%d_%H%M%S" +:+ ".csv").
Proof.
  assert (Hlist : ∃ w1, run (get_cause_list web_interface.scraper
                               (dict_get_default d "court_code" (PStr "01"))
                               (dict_get_default d "date" PNone)) w
                        = (Return cause_list_literal, w1)
                        ∧ w_fs w1 = w_fs w ∧ w_strftime w1 = w_strftime w
                        ∧ w_set_order w1 = w_set_order w).
  { unfold get_cause_list, get_cause_list_try. run_step.
    destruct (py_truthy _); cbn [negb]; run_step; eexists; repeat split. }
  destruct Hlist as (w1 & Hlist & Hfs & Hclock & Horder).
  unfold web_interface.get_cause_list, web_interface.get_cause_list_try,
    web_interface.get_json, web_interface.data_get, web_interface.internal_error.
  run_step. rewrite Hlist. unfold cause_list_literal at 1. cbv iota.
  fold cause_list_literal. rewrite run_bind.
  rewrite <- Hfs, <- Hclock.
  destruct (run (save_cause_list_csv web_interface.scraper cause_list_literal None) w1)
    as [[filename|e] w2] eqn:Hsave.
  2:{ destruct (save_cause_list_csv_returns web_interface.scraper cause_list_literal
                  None w1) as (r & w3 & H). congruence. }
  run_step. exists filename. split; [reflexivity|].
  assert (Hok : ∀ fs1,
            fs_open_w (w_fs w1)
              ("cause_list_" +:+ w_strftime w1 "%Y%m%d_%H%M%S" +:+ ".csv")
            = Return fs1 →
            (509 ≤ fs_room fs1)%N →
            filename = "cause_list_" +:+ w_strftime w1 "%Y%m%d_%H%M%S" +:+ ".csv").
  { intros fs1 Hopen Hroom.
    pose proof (writerows_known_fields (w_set_order w1) _ _ cause_list_literal_known
                  cause_list_literal_printable) as Hrows.
    destruct (save_cause_list_csv_run web_interface.scraper _ _ None _ fs1 _ _ w1
                eq_refl Hopen Hrows) as (w3 & Hrun & _).
    - etrans; [|exact Hroom]. vm_compute. discriminate.
    - unfold cause_list_literal in Hsave. rewrite Hrun in Hsave. congruence. }
  split; [|split; [|exact Hok]].
  - destruct (String.eqb_spec filename "") as [->|Hne]; [right; reflexivity|left].
    unfold cause_list_literal in Hsave.
    destruct (save_cause_list_csv_success _ _ _ _ _ _ _ Hsave Hne)
      as (_ & _ & Hname & _). exact Hname.
  - intros e Hopen.
    rewrite (save_cause_list_csv_refused web_interface.scraper cause_list_literal
               None _ e w1 ltac:(discriminate) eq_refl Hopen) in Hsave.
    congruence.
Qed.

(** *** The command line *)

Ltac unfold_CLI :=
  unfold run_cli, cli_try_except, mbind, CLI_bind, mret, CLI_ret, lift, print in *.

Lemma download_case_pdf_returns
    (self : ECourtsScraper) (case_id output_dir : string) (w : world) :
  ∃ path w', download_case_pdf self case_id output_dir w = (Return path, w').
Proof.
  apply (try_except_returns (download_case_pdf_try case_id output_dir)
           download_case_pdf_except w).
  intros e w1. eexists _, _. reflexivity.
Qed.

Lemma main_search_cnr_returns (self : ECourtsScraper) (cnr output_dir : string)
    (download_pdf : bool) (results : dict) (out : list string) (w : world) :
  ∃ results' out' w',
    main_search_cnr self cnr output_dir download_pdf results out w
    = (Return results', out', w').
Proof.
  unfold main_search_cnr. unfold_CLI. cbn [logger].
  destruct (search_case_by_cnr_returns self (PStr cnr)
              (logged INFO [Lit "Searching by CNR..."] w)) as (r & w1 & Hr).
  unfold run in Hr. unfold logged in Hr. unfold logger. rewrite Hr.
  destruct (py_truthy (PDict r)); [|eexists _, _, _; reflexivity].
  destruct (download_pdf && _); [|eexists _, _, _; reflexivity].
  destruct (download_case_pdf_returns self
              (py_str (dict_get_default r "case_number" PNone)) output_dir w1)
    as (path & w2 & Hpath).
  rewrite Hpath. destruct (negb _); eexists _, _, _; reflexivity.
Qed.

Lemma main_search_details_returns (self : ECourtsScraper)
    (case_type case_number year : string) (results : dict)
    (out : list string) (w : world) :
  ∃ results' out' w',
    main_search_details self case_type case_number year results out w
    = (Return results', out', w') ∧ results' ≠ [].
Proof.
  unfold main_search_details, search_case_by_details, search_case_by_details_try.
  unfold_CLI. unfold_M. cbn [py_truthy].
  eexists _, _, _. split; [reflexivity|].
  destruct results as [|[k v] results]; [discriminate|].
  cbn [dict_setitem]. destruct (String.eqb _ _); discriminate.
Qed.

Lemma main_print_cases_returns (cases : list dict) (out : list string) (w : world) :
  ∃ out', main_print_cases cases out w = (Return tt, out', w).
Proof.
  revert out. induction cases as [|case cases IH]; intros out; [eexists; reflexivity|].
  cbn [main_print_cases]. unfold_CLI. apply IH.
Qed.

Lemma main_cause_list_returns (self : ECourtsScraper) (court_code output_dir : string)
    (results : dict) (out : list string) (w : world) :
  ∃ results' out' w',
    main_cause_list self court_code output_dir results out w
    = (Return results', out', w').
Proof.
  unfold main_cause_list. unfold_CLI.
  destruct (get_cause_list_any self (PStr court_code) PNone
              (logged INFO [Lit "Fetching cause list..."] w)) as (w1 & Hlist).
  unfold run, logged in Hlist. unfold logger. rewrite Hlist.
  generalize cause_list_literal. intros [|case cases]; [eexists _, _, _; reflexivity|].
  match goal with
  | |- context [main_print_cases ?l ?o w1] =>
      destruct (main_print_cases_returns l o w1) as (out1 & Hprint)
  end.
  rewrite Hprint.
  destruct (save_cause_list_csv_returns self (case :: cases)
              (Some (os_path.join output_dir "cause_list.csv")) w1)
    as (name & w2 & Hsave).
  unfold run in Hsave. rewrite Hsave.
  destruct (negb _); eexists _, _, _; reflexivity.
Qed.

Lemma main_try_returns (self : ECourtsScraper)
    (cnr case_type case_number year : option string) (causelist : bool)
    (court_code output_dir : string) (download_pdf : bool)
    (out : list string) (w : world) :
  ∃ out' w',
    main_try self cnr case_type case_number year causelist court_code output_dir
      download_pdf out w = (Return tt, out', w').
Proof.
  unfold main_try.
  assert (Hsearch : ∃ results out1 w1,
            (if given cnr
             then main_search_cnr self (default "" cnr) output_dir download_pdf []
             else if given case_type && given case_number && given year
             then main_search_details self (default "" case_type)
                    (default "" case_number) (default "" year) []
             else mret []) out w = (Return results, out1, w1)).
  { destruct (given cnr); [apply main_search_cnr_returns|].
    destruct (given case_type && given case_number && given year).
    - destruct (main_search_details_returns self (default "" case_type)
                  (default "" case_number) (default "" year) [] out w)
        as (r & o & w1 & H & _). eauto.
    - eexists _, _, _. reflexivity. }
  destruct Hsearch as (results & out1 & w1 & Hsearch).
  assert (Hlist : ∃ results2 out2 w2,
            (if causelist
             then main_cause_list self court_code output_dir results
             else mret results) out1 w1 = (Return results2, out2, w2)).
  { destruct causelist; [apply main_cause_list_returns|eexists _, _, _; reflexivity]. }
  destruct Hlist as (results2 & out2 & w2 & Hlist).
  unfold mbind at 1. unfold CLI_bind at 1. rewrite Hsearch.
  unfold mbind at 1. unfold CLI_bind at 1. rewrite Hlist.
  unfold_CLI. destruct results2 as [|kv results2]; [eexists _, _; reflexivity|].
  destruct (save_results_returns self (kv :: results2)
              (Some (os_path.join output_dir "results.json")) w2)
    as (name & w3 & Hsave).
  rewrite Hsave. destruct (negb _); eexists _, _; reflexivity.
Qed.

(** X13.  [main] fails only when the output directory cannot be made: then
    it raises the error of [os.makedirs], having printed nothing; in every
    other case it ends normally, whatever the options. *)
Theorem main_raises_only_from_makedirs
    (cnr case_type case_number year : option string)
    (today tomorrow causelist : bool) (court_code output_dir : string)
    (download_pdf : bool) (w : world) :
  match run (os_makedirs output_dir) w with
  | (Raise e, w1) =>
      run_cli (main cnr case_type case_number year today tomorrow causelist
                 court_code output_dir download_pdf) w
      = (Raise e, [], w1)
  | (Return _, w1) =>
      ∃ out w2,
        run_cli (main cnr case_type case_number year today tomorrow causelist
                   court_code output_dir download_pdf) w
        = (Return tt, out, w2)
  end.
Proof.
  unfold run.
  destruct (os_makedirs output_dir w) as [[[]|e] w1] eqn:Hmk;
    unfold main, run_cli; unfold mbind at 1; unfold CLI_bind at 1;
    unfold lift at 1; rewrite Hmk.
  - unfold cli_try_except.
    destruct (main_try_returns init cnr case_type case_number year causelist
                court_code output_dir download_pdf [] w1) as (out & w2 & Htry).
    rewrite Htry. eauto.
  - reflexivity.
Qed.

(** X14.  Options of [main] that change nothing: the flags [--today] and
    [--tomorrow] are never read, and when a CNR is given the case type,
    number and year are not looked at. *)
Theorem main_options_without_effect
    (cnr case_type case_number year : option string)
    (today tomorrow causelist : bool) (court_code output_dir : string)
    (download_pdf : bool) :
  given cnr = true →
  main cnr case_type case_number year today tomorrow causelist court_code
    output_dir download_pdf
  = main cnr None None None false false causelist court_code output_dir download_pdf
  ∧ ∀ cnr2 case_type2 case_number2 year2,
      main cnr2 case_type2 case_number2 year2 today tomorrow causelist court_code
        output_dir download_pdf
      = main cnr2 case_type2 case_number2 year2 false false causelist court_code
          output_dir download_pdf.
Proof.
  intros Hcnr. split; [|reflexivity].
  unfold main, main_try. rewrite Hcnr. reflexivity.
Qed.

Lemma main_options_without_effect_witness :
  main (Some "DLCT01-123456-2023") (Some "Civil") (Some "12345") (Some "2023")
    true true false "01" "output" false
  = main (Some "DLCT01-123456-2023") None None None false false false "01" "output"
      false.
Proof.
  assert (H : given (Some "DLCT01-123456-2023") = true) by reflexivity.
  exact (proj1 (main_options_without_effect (Some "DLCT01-123456-2023")
                  (Some "Civil") (Some "12345") (Some "2023") true true false
                  "01" "output" false H)).
Defined.



Lemma join_results_json (output_dir : string) :
  String.eqb (os_path.join output_dir "results.json") "" = false.
Proof.
  unfold os_path.join. cbn [str_startswith]. change (Ascii.eqb SLASH "r") with false.
  cbv iota. destruct output_dir as [|c d]; [reflexivity|].
  destruct (String.eqb _ "" || _); reflexivity.
Qed.

(** The JSON text of a record of the fixture dataset. *)
Lemma demo_case_json (c : string) (record : dict) :
  demo_cases init !! c = Some record →
  json.dump_error (PDict [("case_search", PDict record)]) = None
  ∧ (N.of_nat (String.length (json.dump_text (PDict [("case_search", PDict record)])))
     ≤ 409)%N.
Proof.
  intros H. each_demo_case H; split; vm_compute; (reflexivity || discriminate).
Qed.



(** *** [setup.py] *)


Lemma fs_exists_mono (fs fs' : filesystem) (d : string) :
  fs_dirs fs ⊆ fs_dirs fs' → fs_files fs' = fs_files fs →
  fs_exists fs d = true → fs_exists fs' d = true.
Proof.
  unfold fs_exists. intros Hsub Hfiles [Hne [Hdir|Hfile]%orb_prop]%andb_prop.
  - rewrite Hne, (fs_isdir_mono _ _ _ Hsub Hdir). reflexivity.
  - rewrite Hne, Hfiles, Hfile. apply orb_true_r.
Qed.

Lemma os_makedirs_new_simple (d : string) (w : world) :
  fs_exists (w_fs w) d = false → d ≠ "" →
  os_path.rstrip_slash d = d → os_path.ancestors "" d = [] →
  os_path.dirname d = "" → os_path.normal d = d →
  d ∉ fs_denied (w_fs w) →
  os_makedirs_new d w
  = (Return tt,
     with_fs {| fs_dirs := {[d]} ∪ fs_dirs (w_fs w);
                fs_files := fs_files (w_fs w);
                fs_denied := fs_denied (w_fs w);
                fs_room := fs_room (w_fs w) |} w).
Proof.
  intros Hnew Hd Hstem Hancestors Hdirname Hnormal Hallowed.
  unfold os_makedirs_new. unfold_M. rewrite Hnew.
  change (os_makedirs d w) with (run (os_makedirs d) w). rewrite run_os_makedirs.
  destruct (String.eqb_spec d "") as [?|_]; [contradiction|].
  unfold os_path.prefixes. rewrite Hstem, Hancestors. cbn [app fs_mkdirs].
  unfold fs_mkdir, fs_under_file, fs_isfile. rewrite Hstem, Hancestors, Hdirname, Hnormal.
  unfold fs_exists in Hnew. destruct (String.eqb_spec d "") as [?|_]; [contradiction|].
  cbn [negb andb] in Hnew. apply orb_false_elim in Hnew as [Hdir Hfile].
  rewrite Hdir, Hfile. cbn [existsb].
  change (fs_isdir (w_fs w) "") with true. cbn [negb].
  rewrite bool_decide_eq_false_2 by exact Hallowed. reflexivity.
Qed.

Lemma create_each_creates (ds : list string) (out : list string) (w : world) :
  Forall (λ d, d ≠ "" ∧ os_path.rstrip_slash d = d ∧ os_path.ancestors "" d = []
               ∧ os_path.dirname d = "" ∧ os_path.normal d = d) ds →
  Forall (λ d, d ∉ fs_denied (w_fs w)) ds →
  ∃ out' w',
    setup.create_each ds out w = (Return tt, out', w')
    ∧ fs_files (w_fs w') = fs_files (w_fs w)
    ∧ fs_denied (w_fs w') = fs_denied (w_fs w)
    ∧ fs_dirs (w_fs w) ⊆ fs_dirs (w_fs w')
    ∧ Forall (λ d, fs_exists (w_fs w') d = true) ds.
Proof.
  revert out w. induction ds as [|d ds IH]; intros out w Hsimple Hallowed.
  - eexists _, _. split; [reflexivity|]. repeat split; [set_solver|constructor].
  - apply Forall_cons in Hsimple
      as [(Hd & Hstem & Hancestors & Hdirname & Hnormal) Hsimple].
    apply Forall_cons in Hallowed as [Hallowed_d Hallowed].
    cbn [setup.create_each]. unfold_CLI. unfold get_fs at 1.
    destruct (fs_exists (w_fs w) d) eqn:Hexists; cbn [negb].
    + destruct (IH (out ++ ["✅ Directory already exists: " +:+ d])%list w
                  Hsimple Hallowed) as (out' & w' & Hrun & Hf & Hden & Hsub & Hall).
      exists out', w'. split; [exact Hrun|]. repeat split; try assumption.
      constructor; [|exact Hall]. eapply fs_exists_mono; eassumption.
    + rewrite (os_makedirs_new_simple d w Hexists Hd Hstem Hancestors Hdirname
                 Hnormal Hallowed_d).
      match goal with
      | |- context [setup.create_each ds ?o ?w1] =>
          destruct (IH o w1 Hsimple Hallowed) as (out' & w' & Hrun & Hf & Hden & Hsub & Hall)
      end.
      exists out', w'. split; [exact Hrun|].
      cbn [w_fs with_fs fs_files fs_denied fs_dirs] in Hf, Hden, Hsub.
      repeat split; [exact Hf|exact Hden|set_solver|].
      constructor; [|exact Hall].
      apply (fs_exists_mono {| fs_dirs := {[d]} ∪ fs_dirs (w_fs w);
                               fs_files := fs_files (w_fs w);
                               fs_denied := fs_denied (w_fs w);
                               fs_room := fs_room (w_fs w) |});
        [exact Hsub|exact Hf|].
      unfold fs_exists, fs_isdir. cbn [fs_dirs]. rewrite Hnormal.
      destruct (String.eqb_spec d "") as [?|_]; [contradiction|]. cbn [negb andb].
      apply orb_true_intro. left. apply orb_true_intro. right.
      apply bool_decide_eq_true. set_solver.
Qed.

Lemma create_each_keeps (ds : list string) (out : list string) (w : world) :
  Forall (λ d, fs_exists (w_fs w) d = true) ds →
  ∃ out', setup.create_each ds out w = (Return tt, out', w).
Proof.
  revert out. induction ds as [|d ds IH]; intros out Hall; [eexists; reflexivity|].
  apply Forall_cons in Hall as [Hd Hall].
  cbn [setup.create_each]. unfold_CLI. unfold get_fs at 1. rewrite Hd. cbn [negb].
  apply IH, Hall.
Qed.



(** *** Searching by details, and the demonstration of error handling *)

